(** * Recipe costing and draft reconciliation: a shallow embedding

    The development follows the TypeScript sources of the costing tool:
    - [types.ts]: the [Unit] enumeration and the [Ingredient],
      [RecipeIngredient], [Recipe] and [CostBreakdown] shapes;
    - the ingredient manager component: [calculateBaseCost], [handleSave],
      [startEdit], [parseUnit], [handleFileUpload] from the parsed sheet
      on, and the search filter [filteredIngredients];
    - the application component: the catalog handlers, the recipe handlers
      [handleSaveRecipe] and [handleDeleteRecipe], and [calculateRecipeCost];
    - the recipe manager component: [handleGenerateAI] from the arrival of
      the draft on, [addIngredientToRecipe] and [removeRecipeIngredient];
    - the marketing generator component: the ingredient names collected by
      [handleGenerate].

    The state the handlers share (the catalog, the recipes, the messages
    shown with [alert] and the console) is passed explicitly.

    Numbers.  A JavaScript [number] is modelled as an exact rational or
    [NaN]: [NaN] is absorbing and compares false with everything, and the
    arithmetic on the other numbers is exact.  The code computes in
    binary64, where a result is rounded and can overflow to an infinity;
    the model shows neither, so a property is stated on it only where the
    code's own arithmetic gives the same answer, and where rounding matters
    the binary64 evaluation is given beside it ([Binary64]).  Every division
    of the modelled code is guarded by a [> 0] test on its divisor or
    divides by the literal [100], so no division by zero is reached.

    Strings.  A JavaScript string is modelled as a [string] of bytes;
    [toLowerCase] and [trim] act on the ASCII letters and the ASCII white
    space.

    The first part of the file holds the definitions: the embedding of the
    sources, then the definitions the properties are stated with and the
    example data.  The second part holds the properties. *)

From Stdlib Require Import QArith Qcanon Ascii String PrimFloat.
From stdpp Require Import base numbers list strings gmap pretty.

Local Open Scope Z_scope.

(** ** JavaScript numbers *)

Module JS.

Inductive number : Type :=
  | NaN
  | Num (q : Qc).

Definition of_Z (z : Z) : number := Num (Qc_of_Z z).

Definition add (a b : number) : number :=
  match a, b with
  | Num x, Num y => Num (x + y)%Qc
  | _, _ => NaN
  end.

Definition mul (a b : number) : number :=
  match a, b with
  | Num x, Num y => Num (x * y)%Qc
  | _, _ => NaN
  end.

Definition is_zero (q : Qc) : bool :=
  match (q ?= Qc_of_Z 0)%Qc with Eq => true | _ => false end.

(** [x / 0] is an infinity or [NaN] in JavaScript; the model has no infinity
    and answers [NaN].  No function below reaches that case. *)
Definition div (a b : number) : number :=
  match a, b with
  | Num x, Num y => if is_zero y then NaN else Num (x / y)%Qc
  | _, _ => NaN
  end.

(** [a > b] *)
Definition gt (a b : number) : bool :=
  match a, b with
  | Num x, Num y => match (x ?= y)%Qc with Gt => true | _ => false end
  | _, _ => false
  end.

(** The propositional readings of [a < b] and [a <= b] on numbers; both are
    false as soon as one side is [NaN]. *)
Definition lt (a b : number) : Prop :=
  match a, b with
  | Num x, Num y => (x < y)%Qc
  | _, _ => False
  end.

Definition le (a b : number) : Prop :=
  match a, b with
  | Num x, Num y => (x <= y)%Qc
  | _, _ => False
  end.

(** Truthiness of a number: [0] and [NaN] are falsy. *)
Definition truthy (a : number) : bool :=
  match a with
  | NaN => false
  | Num q => negb (is_zero q)
  end.

(** *** Strings *)

Definition lower_ascii (c : ascii) : ascii :=
  let n := N_of_ascii c in
  if ((65 <=? n) && (n <=? 90))%N then ascii_of_N (n + 32) else c.

Fixpoint toLowerCase (s : string) : string :=
  match s with
  | EmptyString => EmptyString
  | String c r => String (lower_ascii c) (toLowerCase r)
  end.

(** White space and line terminators below code point 128. *)
Definition is_space (c : ascii) : bool :=
  let n := N_of_ascii c in
  ((n =? 9) || (n =? 10) || (n =? 11) || (n =? 12) || (n =? 13) || (n =? 32))%N.

Fixpoint trimStart (s : string) : string :=
  match s with
  | EmptyString => EmptyString
  | String c r => if is_space c then trimStart r else s
  end.

Fixpoint trimEnd (s : string) : string :=
  match s with
  | EmptyString => EmptyString
  | String c r =>
      match trimEnd r with
      | EmptyString => if is_space c then EmptyString else String c EmptyString
      | r' => String c r'
      end
  end.

Definition trim (s : string) : string := trimEnd (trimStart s).

(** Truthiness of a string: only the empty string is falsy. *)
Definition truthy_str (s : string) : bool :=
  match s with EmptyString => false | _ => true end.

End JS.

Abbreviation number := JS.number.
Abbreviation NaN := JS.NaN.
Abbreviation Num := JS.Num.

Declare Scope js_scope.
Delimit Scope js_scope with js.
Bind Scope js_scope with JS.number.
Infix "+" := JS.add : js_scope.
Infix "*" := JS.mul : js_scope.
Infix "/" := JS.div : js_scope.
Infix ">?" := JS.gt (at level 70, no associativity) : js_scope.
Infix "<" := JS.lt : js_scope.
Infix "<=" := JS.le : js_scope.
Notation "0" := (JS.of_Z 0) : js_scope.
Notation "1" := (JS.of_Z 1) : js_scope.
Notation "100" := (JS.of_Z 100) : js_scope.
Notation "1000" := (JS.of_Z 1000) : js_scope.

(** ** [types.ts] *)

Inductive Unit : Type :=
  | GRAM | KILOGRAM | MILLILITER | LITER | PIECE | OUNCE | POUND.

(** The string each member of the enumeration stands for at run time. *)
Definition Unit_value (u : Unit) : string :=
  match u with
  | GRAM => "g" | KILOGRAM => "kg" | MILLILITER => "ml" | LITER => "l"
  | PIECE => "pc" | OUNCE => "oz" | POUND => "lb"
  end.

Global Instance Unit_eq_dec : EqDecision Unit.
Proof. solve_decision. Defined.

Definition INGREDIENT_CATEGORIES : list string :=
  ["Meat"; "Seafood"; "Flours"; "Dairy"; "Bakery"; "Condiments";
   "Vegetables"; "Pasta"; "Fruits"; "Alcohol"; "Others"].

Module Ingredient.

Record t : Type := mk {
  id : string;
  name : string;
  category : string;
  purchaseUnit : Unit;
  purchaseCost : number;
  purchaseQuantity : number;
  costPerBaseUnit : number
}.

End Ingredient.

Abbreviation Ingredient := Ingredient.t.

(** [unit] is declared as [Unit], a string enumeration; the reconciler stores
    the draft's token there unchecked, so the field holds a string. *)
Module RecipeIngredient.

Record t : Type := mk {
  ingredientId : string;
  quantity : number;
  unit : string
}.

End RecipeIngredient.

Abbreviation RecipeIngredient := RecipeIngredient.t.

Module Recipe.

Record t : Type := mk {
  id : string;
  name : string;
  description : string;
  servings : number;
  ingredients : list RecipeIngredient;
  laborCost : number;
  overheadPercentage : number;
  targetFoodCostPercentage : number;
  instructions : option string;
  imageUrl : option string
}.

End Recipe.

Abbreviation Recipe := Recipe.t.

Module CostBreakdown.

Record t : Type := mk {
  totalIngredientCost : number;
  laborCost : number;
  overheadCost : number;
  totalCost : number;
  costPerServing : number;
  suggestedPrice : number;
  actualPrice : option number;
  currentMargin : option number
}.

End CostBreakdown.

Abbreviation CostBreakdown := CostBreakdown.t.

(** ** The unit normalizer (ingredient manager) *)

Definition baseFactor (unit : Unit) : number :=
  let baseFactor := 1%js in
  let baseFactor := if decide (unit = KILOGRAM) then 1000%js else baseFactor in
  let baseFactor := if decide (unit = LITER) then 1000%js else baseFactor in
  baseFactor.

Definition calculateBaseCost (unit : Unit) (cost quantity : number) : number :=
  let totalBaseUnits := (quantity * baseFactor unit)%js in
  if (totalBaseUnits >? 0)%js then (cost / totalBaseUnits)%js else 0%js.

Definition parseUnit (raw : string) : Unit :=
  let lower := JS.trim (JS.toLowerCase raw) in
  if (lower =? "kg")%string || (lower =? "kilogram")%string || (lower =? "kgs")%string then KILOGRAM
  else if (lower =? "g")%string || (lower =? "gram")%string || (lower =? "gms")%string then GRAM
  else if (lower =? "l")%string || (lower =? "liter")%string || (lower =? "litre")%string then LITER
  else if (lower =? "ml")%string || (lower =? "milliliter")%string then MILLILITER
  else if (lower =? "oz")%string || (lower =? "ounce")%string then OUNCE
  else if (lower =? "lb")%string || (lower =? "pound")%string || (lower =? "lbs")%string then POUND
  else PIECE.

(** ** The application component: catalog, recipes, cost engine *)

Module App.

(** The two persisted collections, and the messages shown with [alert]
    and written with [console.log], oldest first. *)
Record state : Type := mk {
  ingredients : list Ingredient;
  recipes : list Recipe;
  alerts : list string;
  console : list string
}.

Definition setIngredients (l : list Ingredient) (st : state) : state :=
  mk l (recipes st) (alerts st) (console st).

Definition alert (msg : string) (st : state) : state :=
  mk (ingredients st) (recipes st) (alerts st ++ [msg]) (console st).

Definition console_log (msg : string) (st : state) : state :=
  mk (ingredients st) (recipes st) (alerts st) (console st ++ [msg]).

End App.

Definition handleAddIngredient (ing : Ingredient) (st : App.state) : App.state :=
  App.setIngredients (App.ingredients st ++ [ing]) st.

Definition handleBulkAddIngredients (newIngredients : list Ingredient)
    (st : App.state) : App.state :=
  App.setIngredients (App.ingredients st ++ newIngredients) st.

Definition handleUpdateIngredient (updatedIng : Ingredient)
    (st : App.state) : App.state :=
  App.setIngredients
    (List.map (fun i => if (Ingredient.id i =? Ingredient.id updatedIng)%string
                        then updatedIng else i)
              (App.ingredients st))
    st.

Definition isUsed (recipes : list Recipe) (id : string) : bool :=
  List.existsb (fun r =>
    List.existsb (fun ri => (RecipeIngredient.ingredientId ri =? id)%string)
                 (Recipe.ingredients r))
    recipes.

Definition handleDeleteIngredient (id : string) (st : App.state) : App.state :=
  if isUsed (App.recipes st) id then
    App.alert "Cannot delete ingredient because it is used in a recipe." st
  else
    App.setIngredients
      (List.filter (fun i => negb (Ingredient.id i =? id)%string)
                   (App.ingredients st))
      st.

(** The body of the [forEach] in [calculateRecipeCost]. *)
Definition addLineCost (ingredients : list Ingredient)
    (totalIngredientCost : number) (item : RecipeIngredient) : number :=
  match List.find (fun i => (Ingredient.id i =? RecipeIngredient.ingredientId item)%string)
                  ingredients with
  | Some ing =>
      (totalIngredientCost
       + RecipeIngredient.quantity item * Ingredient.costPerBaseUnit ing)%js
  | None => totalIngredientCost
  end.

Definition calculateRecipeCost (ingredients : list Ingredient)
    (recipe : Recipe) : CostBreakdown :=
  let totalIngredientCost :=
    fold_left (addLineCost ingredients) (Recipe.ingredients recipe) 0%js in
  let overheadCost :=
    (totalIngredientCost * (Recipe.overheadPercentage recipe / 100))%js in
  let totalCost := (totalIngredientCost + Recipe.laborCost recipe + overheadCost)%js in
  let costPerServing :=
    if (Recipe.servings recipe >? 0)%js
    then (totalCost / Recipe.servings recipe)%js else 0%js in
  let ingredientCostPerServing :=
    if (Recipe.servings recipe >? 0)%js
    then (totalIngredientCost / Recipe.servings recipe)%js else 0%js in
  let targetDecimal := (Recipe.targetFoodCostPercentage recipe / 100)%js in
  let suggestedPrice :=
    if (targetDecimal >? 0)%js
    then (ingredientCostPerServing / targetDecimal)%js else 0%js in
  CostBreakdown.mk totalIngredientCost (Recipe.laborCost recipe) overheadCost
    totalCost costPerServing suggestedPrice None None.

(** The local [ingredientCostPerServing] of [calculateRecipeCost], which the
    breakdown does not return. *)
Definition ingredientCostPerServing (ingredients : list Ingredient)
    (recipe : Recipe) : number :=
  let totalIngredientCost :=
    CostBreakdown.totalIngredientCost (calculateRecipeCost ingredients recipe) in
  if (Recipe.servings recipe >? 0)%js
  then (totalIngredientCost / Recipe.servings recipe)%js else 0%js.

(** ** The ingredient manager component *)

Module PartialIngredient.

(** [Partial<Ingredient>], the type of the form state [newIng]: a field
    that is [None] is [undefined].  Every writer of [newIng] (the initial
    state, the reset, [startEdit] and the change handlers) sets
    [purchaseUnit], which is therefore kept plain. *)
Record t : Type := mk {
  id : option string;
  name : option string;
  category : option string;
  purchaseUnit : Unit;
  purchaseCost : option number;
  purchaseQuantity : option number;
  costPerBaseUnit : option number
}.

End PartialIngredient.

Abbreviation PartialIngredient := PartialIngredient.t.

Module IngredientManager.

Record state : Type := mk {
  isEditing : option string;
  newIng : PartialIngredient
}.

End IngredientManager.

(** The value [setNewIng] receives at mount and after every save. *)
Definition blankIng : PartialIngredient :=
  PartialIngredient.mk None (Some ""%string) (Some "Others"%string) KILOGRAM
                       (Some 0%js) (Some 1%js) None.

(** [a || b] on optional strings. *)
Definition or_str (a : option string) (b : string) : string :=
  match a with
  | Some s => if JS.truthy_str s then s else b
  | None => b
  end.

(** Truthiness of an optional string. *)
Definition truthy_ostr (a : option string) : bool :=
  match a with Some s => JS.truthy_str s | None => false end.

(** [uuid] is the string [crypto.randomUUID()] returns if it is called. *)
Definition handleSave (uuid : string)
    (ui : IngredientManager.state) (st : App.state)
    : IngredientManager.state * App.state :=
  let newIng := IngredientManager.newIng ui in
  let isEditing := IngredientManager.isEditing ui in
  match PartialIngredient.name newIng,
        PartialIngredient.purchaseCost newIng,
        PartialIngredient.purchaseQuantity newIng with
  | Some name, Some cost, Some quantity =>
      if negb (JS.truthy_str name) || negb (JS.truthy quantity) then (ui, st)
      else
        let unit := PartialIngredient.purchaseUnit newIng in
        let costPerBaseUnit := calculateBaseCost unit cost quantity in
        let ingredient :=
          Ingredient.mk (or_str isEditing uuid) name
                        (or_str (PartialIngredient.category newIng) "Others")
                        unit cost quantity costPerBaseUnit in
        if truthy_ostr isEditing
        then (IngredientManager.mk None blankIng,
              handleUpdateIngredient ingredient st)
        else (IngredientManager.mk isEditing blankIng,
              handleAddIngredient ingredient st)
  | _, _, _ => (ui, st)
  end.

Definition startEdit (ing : Ingredient) (ui : IngredientManager.state)
    : IngredientManager.state :=
  IngredientManager.mk
    (Some (Ingredient.id ing))
    (PartialIngredient.mk
       (Some (Ingredient.id ing)) (Some (Ingredient.name ing))
       (Some (Ingredient.category ing)) (Ingredient.purchaseUnit ing)
       (Some (Ingredient.purchaseCost ing))
       (Some (Ingredient.purchaseQuantity ing))
       (Some (Ingredient.costPerBaseUnit ing))).

(** *** Spreadsheet rows *)

(** A cell of a parsed sheet, or [undefined] for a column the row lacks. *)
Inductive value : Type :=
  | VUndefined
  | VNumber (n : number)
  | VString (s : string)
  | VBoolean (b : bool).

Definition truthy_value (v : value) : bool :=
  match v with
  | VUndefined => false
  | VNumber n => JS.truthy n
  | VString s => JS.truthy_str s
  | VBoolean b => b
  end.

(** [a || b] *)
Definition or_value (a b : value) : value := if truthy_value a then a else b.
Infix "||'" := or_value (at level 50, left associativity).

(** [row[key]] *)
Definition get (row : gmap string value) (key : string) : value :=
  default VUndefined (row !! key).

Section FileUpload.

(** The built-ins the row loop calls: [parseFloat] on a string,
    the conversion of a number to a string, and the successive results of
    [crypto.randomUUID()]. *)
Variable parseFloat_string : string -> number.
Variable number_toString : number -> string.
Variable randomUUID : nat -> string.

(** [String(v)] *)
Definition String_of (v : value) : string :=
  match v with
  | VUndefined => "undefined"
  | VNumber n => number_toString n
  | VString s => s
  | VBoolean true => "true"
  | VBoolean false => "false"
  end.

(** [parseFloat(v)]: the argument is converted to a string first; a number
    reads back as itself. *)
Definition parseFloat (v : value) : number :=
  match v with
  | VNumber n => n
  | VString s => parseFloat_string s
  | VUndefined | VBoolean _ => NaN
  end.

Definition row_name (row : gmap string value) : value :=
  get row "Name" ||' get row "name" ||' get row "Ingredient"
    ||' get row "ingredient" ||' get row "Item".

Definition row_category (row : gmap string value) : string :=
  let category := get row "Category" ||' get row "category" ||' VString "Others" in
  match List.find (fun c => (JS.toLowerCase c =? JS.toLowerCase (String_of category))%string)
                  INGREDIENT_CATEGORIES with
  | Some matchCat => if JS.truthy_str matchCat then matchCat else String_of category
  | None => String_of category
  end.

Definition row_cost (row : gmap string value) : number :=
  parseFloat (get row "Cost" ||' get row "cost" ||' get row "Price"
                ||' get row "price" ||' VString "0").

Definition row_qty (row : gmap string value) : number :=
  parseFloat (get row "Quantity" ||' get row "quantity" ||' get row "Qty"
                ||' get row "qty" ||' VString "1").

Definition row_unitRaw (row : gmap string value) : value :=
  get row "Unit" ||' get row "unit" ||' get row "UOM" ||' VString "kg".

(** The test [name && cost > 0] that guards the [push]. *)
Definition admitted (row : gmap string value) : bool :=
  truthy_value (row_name row) && (row_cost row >? 0)%js.

(** The [forEach] over the rows, as a left fold that appends to
    [parsedIngredients]; the identifier of a row is drawn when it is
    pushed. *)
Definition pushRow (parsedIngredients : list Ingredient)
    (row : gmap string value) : list Ingredient :=
  let cost := row_cost row in
  let qty := row_qty row in
  if admitted row then
    let unit := parseUnit (String_of (row_unitRaw row)) in
    let costPerBaseUnit := calculateBaseCost unit cost qty in
    parsedIngredients ++
      [Ingredient.mk (randomUUID (length parsedIngredients))
                     (String_of (row_name row)) (row_category row)
                     unit cost qty costPerBaseUnit]
  else parsedIngredients.

Definition parseRows (jsonData : list (gmap string value)) : list Ingredient :=
  fold_left pushRow jsonData [].

(** [handleFileUpload] from the parsed sheet on. *)
Definition handleFileUpload (jsonData : list (gmap string value))
    (st : App.state) : App.state :=
  let parsedIngredients := parseRows jsonData in
  if (0 <? length parsedIngredients)%nat then
    App.alert ("Successfully imported " +:+ pretty (length parsedIngredients)
                 +:+ " ingredients.")
              (handleBulkAddIngredients parsedIngredients st)
  else
    App.alert "No valid ingredients found in file. Please check column headers (Name, Cost, Quantity, Unit)." st.

(** The ingredient pushed for an admitted row, the [k]-th to be pushed. *)
Definition buildRow (k : nat) (row : gmap string value) : Ingredient :=
  let cost := row_cost row in
  let qty := row_qty row in
  let unit := parseUnit (String_of (row_unitRaw row)) in
  Ingredient.mk (randomUUID k) (String_of (row_name row))
    (row_category row) unit cost qty
    (calculateBaseCost unit cost qty).

End FileUpload.

(** A reader for plain decimal numerals ([12], [0.5], [-3.25]), used to run
    the examples; anything else reads as [NaN]. *)
Definition digit_of (c : ascii) : option Z :=
  let n := N_of_ascii c in
  if ((48 <=? n) && (n <=? 57))%N then Some (Z.of_N n - 48) else None.

Fixpoint read_digits (s : string) (acc : Z) (count : nat) : Z * nat * string :=
  match s with
  | EmptyString => (acc, count, s)
  | String c r =>
      match digit_of c with
      | Some d => read_digits r (10 * acc + d) (S count)
      | None => (acc, count, s)
      end
  end.

Definition read_decimal (s : string) : number :=
  let '(neg, s) :=
    match s with
    | String "-" r => (true, r)
    | String "+" r => (false, r)
    | _ => (false, s)
    end in
  let '(ip, ic, rest) := read_digits s 0 0%nat in
  let '(fp, fc) :=
    match rest with
    | String "." r => let '(fp, fc, _) := read_digits r 0 0%nat in (fp, fc)
    | _ => (0, 0%nat)
    end in
  if (ic + fc =? 0)%nat then NaN
  else
    let q := (Qc_of_Z ip + Qc_of_Z fp / Qc_of_Z (10 ^ Z.of_nat fc))%Qc in
    Num (if neg : bool then (- q)%Qc else q).

(** ** The recipe manager component: merging a generated draft *)

Module Suggestion.

(** An element of [draft.ingredients], with the fields of the response
    schema. *)
Record t : Type := mk {
  name : string;
  quantity : number;
  unit : string;
  estimatedCost : number
}.

End Suggestion.

Abbreviation Suggestion := Suggestion.t.

Module Draft.

(** The parsed response; a field the response lacks is [None]. *)
Record t : Type := mk {
  description : option string;
  servings : option number;
  instructions : option string;
  ingredients : option (list Suggestion)
}.

End Draft.

Abbreviation Draft := Draft.t.

(** The [find] that looks a suggestion up in the catalog. *)
Definition findMatch (ingredients : list Ingredient) (suggested : Suggestion)
    : option Ingredient :=
  List.find (fun i => (JS.toLowerCase (Ingredient.name i)
                       =? JS.toLowerCase (Suggestion.name suggested))%string)
            ingredients.

(** The two assignments to [qty]. *)
Definition rebase (suggested : Suggestion) : number :=
  let qty := Suggestion.quantity suggested in
  let qty := if (Suggestion.unit suggested =? "kg")%string then (qty * 1000)%js else qty in
  let qty := if (Suggestion.unit suggested =? "l")%string then (qty * 1000)%js else qty in
  qty.

(** The body of the [forEach] over [draft.ingredients]: the state is
    [newIngredients] and the console. *)
Definition reconcileOne (ingredients : list Ingredient)
    (acc : list RecipeIngredient * list string) (suggested : Suggestion)
    : list RecipeIngredient * list string :=
  let '(newIngredients, console) := acc in
  match findMatch ingredients suggested with
  | Some match_ =>
      (newIngredients ++
         [RecipeIngredient.mk (Ingredient.id match_) (rebase suggested)
                              (Suggestion.unit suggested)],
       console)
  | None =>
      (newIngredients,
       console ++ ["Missing ingredient from AI: " +:+ Suggestion.name suggested])
  end.

Definition reconcile (ingredients : list Ingredient) (draft : Draft)
    : list RecipeIngredient * list string :=
  match Draft.ingredients draft with
  | Some suggestions => fold_left (reconcileOne ingredients) suggestions ([], [])
  | None => ([], [])
  end.

(** [draft.instructions || prev.instructions] *)
Definition or_ostr (a b : option string) : option string :=
  if truthy_ostr a then a else b.

(** [draft.servings || prev.servings] *)
Definition or_num (a : option number) (b : number) : number :=
  match a with
  | Some n => if JS.truthy n then n else b
  | None => b
  end.

(** The updater passed to [setActiveRecipe]. *)
Definition mergeDraft (draft : Draft) (newIngredients : list RecipeIngredient)
    (prev : option Recipe) : option Recipe :=
  match prev with
  | None => None
  | Some prev =>
      Some (Recipe.mk (Recipe.id prev) (Recipe.name prev)
              (or_str (Draft.description draft) (Recipe.description prev))
              (or_num (Draft.servings draft) (Recipe.servings prev))
              (if (0 <? length newIngredients)%nat
               then newIngredients else Recipe.ingredients prev)
              (Recipe.laborCost prev) (Recipe.overheadPercentage prev)
              (Recipe.targetFoodCostPercentage prev)
              (or_ostr (Draft.instructions draft) (Recipe.instructions prev))
              (Recipe.imageUrl prev))
  end.

(** [handleGenerateAI] once [generateRecipeDraft] has returned [draft]: the
    new [activeRecipe] and the application state, whose console has the
    lines logged for the suggestions that were skipped. *)
Definition handleGenerateAI (draft : Draft) (activeRecipe : option Recipe)
    (st : App.state) : option Recipe * App.state :=
  if negb (truthy_ostr (Recipe.name <$> activeRecipe)) then (activeRecipe, st)
  else
    let '(newIngredients, logged) := reconcile (App.ingredients st) draft in
    (mergeDraft draft newIngredients activeRecipe,
     fold_left (fun st msg => App.console_log msg st) logged st).

(** ** The rest of the application component: the recipe collection *)

Definition setRecipes (l : list Recipe) (st : App.state) : App.state :=
  App.mk (App.ingredients st) l (App.alerts st) (App.console st).

Definition handleSaveRecipe (recipe : Recipe) (st : App.state) : App.state :=
  match List.find (fun r => (Recipe.id r =? Recipe.id recipe)%string)
                  (App.recipes st) with
  | Some _ =>
      setRecipes
        (List.map (fun r => if (Recipe.id r =? Recipe.id recipe)%string
                            then recipe else r)
                  (App.recipes st))
        st
  | None => setRecipes (App.recipes st ++ [recipe]) st
  end.

(** [confirmed] is the answer of the [confirm] dialog. *)
Definition handleDeleteRecipe (confirmed : bool) (id : string)
    (st : App.state) : App.state :=
  if confirmed then
    setRecipes
      (List.filter (fun r => negb (Recipe.id r =? id)%string) (App.recipes st))
      st
  else st.

(** ** The rest of the recipe manager component: editing the lines *)

Definition setRecipeIngredients (l : list RecipeIngredient) (recipe : Recipe)
    : Recipe :=
  Recipe.mk (Recipe.id recipe) (Recipe.name recipe) (Recipe.description recipe)
    (Recipe.servings recipe) l
    (Recipe.laborCost recipe) (Recipe.overheadPercentage recipe)
    (Recipe.targetFoodCostPercentage recipe)
    (Recipe.instructions recipe) (Recipe.imageUrl recipe).

(** The new [activeRecipe]; an early [return] leaves it as it was. *)
Definition addIngredientToRecipe (ingredients : list Ingredient)
    (activeRecipe : option Recipe) : option Recipe :=
  match activeRecipe, ingredients with
  | Some recipe, firstIng :: _ =>
      let newItem :=
        RecipeIngredient.mk (Ingredient.id firstIng) (JS.of_Z 100)
                            (Unit_value GRAM) in
      Some (setRecipeIngredients (Recipe.ingredients recipe ++ [newItem]) recipe)
  | _, _ => activeRecipe
  end.

(** [l.filter((x, i) => f x i)], with [i] counted from [start]. *)
Fixpoint filter_indexed {A : Type} (f : A -> nat -> bool) (start : nat)
    (l : list A) : list A :=
  match l with
  | [] => []
  | x :: r =>
      if f x start then x :: filter_indexed f (S start) r
      else filter_indexed f (S start) r
  end.

Definition removeRecipeIngredient (index : nat)
    (activeRecipe : option Recipe) : option Recipe :=
  match activeRecipe with
  | None => None
  | Some recipe =>
      let newItems :=
        filter_indexed (fun _ i => negb (i =? index)%nat) 0
                       (Recipe.ingredients recipe) in
      Some (setRecipeIngredients newItems recipe)
  end.

(** ** The rest of the ingredient manager component: the search box *)

(** [s.includes(t)]: [t] occurs in [s]. *)
Fixpoint includes (s t : string) : bool :=
  if String.prefix t s then true
  else match s with
       | EmptyString => false
       | String _ r => includes r t
       end.

Definition filteredIngredients (ingredients : list Ingredient)
    (searchTerm : string) : list Ingredient :=
  List.filter
    (fun i =>
       includes (JS.toLowerCase (Ingredient.name i)) (JS.toLowerCase searchTerm)
       || includes (JS.toLowerCase (Ingredient.category i))
                   (JS.toLowerCase searchTerm))
    ingredients.


(** ** The marketing generator component: the names sent with a dish *)

(** [selectedRecipe.ingredients.map(ri => find(...)?.name).filter(n => n)] *)
Definition recipeIngredientNames (ingredients : list Ingredient)
    (selectedRecipe : Recipe) : list string :=
  omap (fun n => match n with
                 | Some s => if JS.truthy_str s then Some s else None
                 | None => None
                 end)
       (List.map
          (fun ri =>
             Ingredient.name <$>
               List.find (fun i => (Ingredient.id i
                                    =? RecipeIngredient.ingredientId ri)%string)
                         ingredients)
          (Recipe.ingredients selectedRecipe)).

(** ** Definitions used to state the properties *)

(** The factor table as the specification words it. *)
Definition factor (u : Unit) : Qc :=
  match u with
  | GRAM => Qc_of_Z 1
  | KILOGRAM => Qc_of_Z 1000
  | MILLILITER => Qc_of_Z 1
  | LITER => Qc_of_Z 1000
  | PIECE => Qc_of_Z 1
  | OUNCE => Qc_of_Z 1
  | POUND => Qc_of_Z 1
  end.

(** What one recipe line costs: quantity times the cost per base unit of the
    catalog entry it references, and nothing when no entry has that id. *)
Definition lineCost (ingredients : list Ingredient) (item : RecipeIngredient)
    : number :=
  match List.find (fun i => (Ingredient.id i =? RecipeIngredient.ingredientId item)%string)
                  ingredients with
  | Some ing => (RecipeIngredient.quantity item * Ingredient.costPerBaseUnit ing)%js
  | None => 0%js
  end.

(** The sum of a list of numbers, from the right. *)
Definition sum_costs (l : list number) : number := fold_right JS.add 0%js l.


(** The derived field agrees with the purchase fields. *)
Definition derived_ok (i : Ingredient) : Prop :=
  Ingredient.costPerBaseUnit i
  = calculateBaseCost (Ingredient.purchaseUnit i) (Ingredient.purchaseCost i)
                      (Ingredient.purchaseQuantity i).

(** The line a suggestion leaves in [newIngredients], if any. *)
Definition emitted (ingredients : list Ingredient) (suggested : Suggestion)
    : option RecipeIngredient :=
  match findMatch ingredients suggested with
  | Some match_ =>
      Some (RecipeIngredient.mk (Ingredient.id match_) (rebase suggested)
                                (Suggestion.unit suggested))
  | None => None
  end.

(** The suggestions of a draft; none when the field is missing. *)
Definition suggestions (draft : Draft) : list Suggestion :=
  match Draft.ingredients draft with
  | Some l => l
  | None => []
  end.

(** The catalog entry with another purchase unit. *)
Definition setPurchaseUnit (u : Unit) (i : Ingredient) : Ingredient :=
  Ingredient.mk (Ingredient.id i) (Ingredient.name i) (Ingredient.category i) u
    (Ingredient.purchaseCost i) (Ingredient.purchaseQuantity i)
    (Ingredient.costPerBaseUnit i).

(** The unit tokens other than "kg" and "l" that the claim names. *)
Definition variants : list string :=
  ["KG"; "Kg"; "kgs"; "L"; "liter"; "kilogram"].

(** The number is [0]. *)
Definition is_zero_num (n : number) : bool :=
  match n with
  | NaN => false
  | Num q => JS.is_zero q
  end.

(** ** The scenario arithmetic in binary64

    The same operations on IEEE 754 double-precision numbers, the numbers
    JavaScript computes with, to check that the values of the two scenarios
    are exact there too. *)

Module Binary64.

Definition calculateBaseCost (baseFactor cost quantity : float) : float :=
  let totalBaseUnits := (quantity * baseFactor)%float in
  if (0 <? totalBaseUnits)%float then (cost / totalBaseUnits)%float else 0%float.

(** [calculateRecipeCost] for a recipe of one line whose ingredient is in the
    catalog: ingredient cost, total cost, cost per serving, suggested
    price. *)
Definition costOfOneLine
    (quantity costPerBaseUnit laborCost overheadPercentage servings
     targetFoodCostPercentage : float) : float * float * float * float :=
  let totalIngredientCost := (0 + quantity * costPerBaseUnit)%float in
  let overheadCost := (totalIngredientCost * (overheadPercentage / 100))%float in
  let totalCost := (totalIngredientCost + laborCost + overheadCost)%float in
  let costPerServing :=
    if (0 <? servings)%float then (totalCost / servings)%float else 0%float in
  let ingredientCostPerServing :=
    if (0 <? servings)%float then (totalIngredientCost / servings)%float
    else 0%float in
  let targetDecimal := (targetFoodCostPercentage / 100)%float in
  let suggestedPrice :=
    if (0 <? targetDecimal)%float
    then (ingredientCostPerServing / targetDecimal)%float else 0%float in
  (totalIngredientCost, totalCost, costPerServing, suggestedPrice).

End Binary64.

(** ** Example data *)

(** Example data: the first entry of the catalog the application starts
    with, and the form state after [startEdit] on it and a change of the
    price to 36000, which still carries the old derived value. *)
Definition flour : Ingredient :=
  Ingredient.mk "1" "All-Purpose Flour" "Flours" KILOGRAM
                (JS.of_Z 18000) 1%js (JS.of_Z 18).

Definition milk : Ingredient :=
  Ingredient.mk "3" "Fresh Milk" "Dairy" LITER (JS.of_Z 28000) 1%js (JS.of_Z 28).

Definition pantry : App.state := App.mk [flour; milk] [] [] [].

Definition repricing : IngredientManager.state :=
  IngredientManager.mk (Some "1"%string)
    (PartialIngredient.mk (Some "1"%string) (Some "All-Purpose Flour"%string)
       (Some "Flours"%string) KILOGRAM (Some (JS.of_Z 36000)) (Some 1%js)
       (Some (JS.of_Z 18))).

(** Example data: a recipe with one line of flour, and a draft whose only
    suggestion names nothing in the catalog. *)
Definition crepes : Recipe :=
  Recipe.mk "r1" "Crepes" "" (JS.of_Z 4)
            [RecipeIngredient.mk "1" (JS.of_Z 250) "g"]
            0%js (JS.of_Z 10) (JS.of_Z 30) None None.

Definition saffronDraft : Draft :=
  Draft.mk (Some "Thin pancakes."%string) (Some (JS.of_Z 2)) None
           (Some [Suggestion.mk "Saffron" 1%js "g" (JS.of_Z 90000)]).

(** Example data: a sheet of ten rows, two of them with cost 0. *)
Definition sheetRow (name : string) (cost : Z) : gmap string value :=
  list_to_map [("Name"%string, VString name); ("Cost"%string, VNumber (JS.of_Z cost));
               ("Quantity"%string, VNumber 1%js); ("Unit"%string, VString "kg")].

Definition sheet : list (gmap string value) :=
  [sheetRow "Flour" 18000; sheetRow "Sugar" 16000; sheetRow "Water" 0;
   sheetRow "Butter" 52000; sheetRow "Salt" 9000; sheetRow "Yeast" 30000;
   sheetRow "Ice" 0; sheetRow "Rice" 14000; sheetRow "Oats" 21000;
   sheetRow "Honey" 75000].

(** ** Definitions used to state the further properties *)

(** The line references an entry of the catalog. *)
Definition resolvable (ingredients : list Ingredient) (item : RecipeIngredient)
    : bool :=
  List.existsb (fun i => (Ingredient.id i =? RecipeIngredient.ingredientId item)%string)
               ingredients.

(** Every line of every saved recipe references an entry of the catalog. *)
Definition references_ok (st : App.state) : Prop :=
  forall r ri, In r (App.recipes st) -> In ri (Recipe.ingredients r) ->
    exists i, In i (App.ingredients st) /\
              Ingredient.id i = RecipeIngredient.ingredientId ri.

(** Further example data: a recipe of two lines, saved in an application
    state whose catalog has both ingredients. *)
Definition pancakes : Recipe :=
  Recipe.mk "r2" "Pancakes" "Fluffy." (JS.of_Z 4)
            [RecipeIngredient.mk "1" (JS.of_Z 250) "g";
             RecipeIngredient.mk "3" (JS.of_Z 500) "ml"]
            (JS.of_Z 5000) (JS.of_Z 10) (JS.of_Z 30) None None.

Definition kitchen : App.state := App.mk [flour; milk] [pancakes] [] [].

(** A recipe that is not ready yet: no servings, no target. *)
Definition sketch : Recipe :=
  Recipe.mk "r3" "Sketch" "" 0%js
            [RecipeIngredient.mk "1" (JS.of_Z 250) "g"]
            0%js (JS.of_Z 10) 0%js None None.

(** * Properties *)

(** ** Numbers *)

Section NumberFacts.

Local Open Scope Qc_scope.

Lemma is_zero_true (q : Qc) : JS.is_zero q = true <-> q = 0.
Proof.
  unfold JS.is_zero. rewrite Z2Qc_inj_0.
  destruct (q ?= 0) eqn:E.
  - split; [intros _; by apply Qceq_alt | done].
  - split; [done | intros ->; by rewrite (proj1 (Qceq_alt 0 0)) in E].
  - split; [done | intros ->; by rewrite (proj1 (Qceq_alt 0 0)) in E].
Qed.

Lemma is_zero_false (q : Qc) : JS.is_zero q = false <-> q ≠ 0.
Proof.
  rewrite <- is_zero_true. destruct (JS.is_zero q); split; congruence.
Qed.

Lemma gt_true (x y : Qc) : JS.gt (Num x) (Num y) = true <-> y < x.
Proof.
  simpl. destruct (x ?= y) eqn:E; split; try done; intros H.
  - apply Qceq_alt in E. subst. by apply Qclt_not_eq in H.
  - apply Qclt_alt in E. pose proof (Qclt_trans _ _ _ E H) as Hxx.
    by apply Qclt_not_eq in Hxx.
  - by apply Qcgt_alt.
Qed.

Lemma gt_zero (x : Qc) : JS.gt (Num x) (JS.of_Z 0) = true <-> 0 < x.
Proof. unfold JS.of_Z. rewrite Z2Qc_inj_0. apply gt_true. Qed.

Lemma div_Num (x y : Qc) : y ≠ 0 -> JS.div (Num x) (Num y) = Num (x / y).
Proof. intros H. simpl. by rewrite (proj2 (is_zero_false y) H). Qed.

Lemma lt_zero_Num (a : number) :
  JS.lt (JS.of_Z 0) a -> exists x, a = Num x /\ 0 < x.
Proof.
  destruct a as [|x]; simpl; [done|]. rewrite Z2Qc_inj_0. eauto.
Qed.

Lemma le_zero_Num (a : number) :
  JS.le (JS.of_Z 0) a -> exists x, a = Num x /\ 0 <= x.
Proof.
  destruct a as [|x]; simpl; [done|]. rewrite Z2Qc_inj_0. eauto.
Qed.

Lemma Qc_of_Z_pos (z : Z) : (0 < z)%Z -> 0 < Qc_of_Z z.
Proof. intros H. rewrite <- Z2Qc_inj_0. by apply (proj1 (Z2Qc_inj_lt 0 z)). Qed.

Lemma Qc_pos_ne (x : Qc) : 0 < x -> x ≠ 0.
Proof. intros H ->. by apply (Qclt_not_eq 0 0). Qed.

End NumberFacts.

Lemma Num_eq (x y : Qc) : (x == y)%Q -> Num x = Num y.
Proof. intros H. f_equal. by apply Qc_is_canon. Qed.

(** Closes an equation between two closed numbers by evaluation. *)
Ltac num_eval := vm_compute; try reflexivity; apply Num_eq; reflexivity.

Lemma add_0_r (a : number) : (a + 0)%js = a.
Proof.
  destruct a as [|x]; [done|]. simpl. rewrite Z2Qc_inj_0. by rewrite Qcplus_0_r.
Qed.

Lemma add_0_l (a : number) : (0 + a)%js = a.
Proof.
  destruct a as [|x]; [done|]. simpl. rewrite Z2Qc_inj_0. by rewrite Qcplus_0_l.
Qed.

Lemma add_assoc (a b c : number) : (a + (b + c))%js = (a + b + c)%js.
Proof.
  destruct a, b, c; simpl; try done. by rewrite Qcplus_assoc.
Qed.

(** ** The unit normalizer *)

Lemma baseFactor_factor (u : Unit) : baseFactor u = Num (factor u).
Proof. by destruct u. Qed.

Lemma factor_pos (u : Unit) : (0 < factor u)%Qc.
Proof. destruct u; by apply Qc_of_Z_pos. Qed.

(** C2. For every purchase unit, every cost [C >= 0] and every quantity
    [Q > 0], the normalizer returns [C / (Q * factor U)], where the factor is
    1000 for kilogram and liter and 1 for gram, milliliter, piece, ounce and
    pound; the result is an ordinary number, never [NaN]. *)
Theorem calculateBaseCost_formula (U : Unit) (C Q : number) :
  (0 <= C)%js -> (0 < Q)%js ->
  calculateBaseCost U C Q = (C / (Q * Num (factor U)))%js /\
  exists c q : Qc,
    C = Num c /\ Q = Num q /\
    calculateBaseCost U C Q = Num (c / (q * factor U))%Qc.
Proof.
  intros HC HQ.
  destruct (le_zero_Num C HC) as (c & -> & Hc).
  destruct (lt_zero_Num Q HQ) as (q & -> & Hq).
  assert (Hpos : (0 < q * factor U)%Qc)
    by (apply Qcmult_pos_pos; [done | apply factor_pos]).
  assert (E : calculateBaseCost U (Num c) (Num q) = Num (c / (q * factor U))%Qc).
  { unfold calculateBaseCost. rewrite baseFactor_factor. cbn [JS.mul].
    rewrite (proj2 (gt_zero _) Hpos). apply div_Num. by apply Qc_pos_ne. }
  split.
  - rewrite E. cbn [JS.mul]. symmetry. apply div_Num. by apply Qc_pos_ne.
  - by exists c, q.
Qed.

Lemma calculateBaseCost_formula_witness :
  calculateBaseCost KILOGRAM (JS.of_Z 18000) 1%js
    = (JS.of_Z 18000 / (1 * Num (factor KILOGRAM)))%js /\
  exists c q : Qc,
    JS.of_Z 18000 = Num c /\ 1%js = Num q /\
    calculateBaseCost KILOGRAM (JS.of_Z 18000) 1%js
      = Num (c / (q * factor KILOGRAM))%Qc.
Proof.
  apply (calculateBaseCost_formula KILOGRAM (JS.of_Z 18000) 1%js);
    [vm_compute; discriminate | vm_compute; reflexivity].
Defined.

(** C7. For every unit and every cost, a purchase quantity of [0] gives a
    cost per base unit of exactly [0]: the division is not attempted. *)
Theorem calculateBaseCost_zero_quantity (U : Unit) (C : number) :
  calculateBaseCost U C 0%js = 0%js.
Proof. destruct U; reflexivity. Qed.

(** [parseUnit] reads the value of every member of the enumeration back as
    that member; the value of [PIECE] is read by the default. *)
Lemma parseUnit_Unit_value (u : Unit) : parseUnit (Unit_value u) = u.
Proof. by destruct u. Qed.

Example parseUnit_examples :
  parseUnit "  KGs " = KILOGRAM /\ parseUnit "Litre" = LITER /\
  parseUnit "cup" = PIECE /\ parseUnit "" = PIECE.
Proof. repeat split. Qed.

(** ** The cost calculator *)

Lemma addLineCost_lineCost ingredients total item :
  addLineCost ingredients total item = (total + lineCost ingredients item)%js.
Proof.
  unfold addLineCost, lineCost. destruct (List.find _ _); [done|].
  by rewrite add_0_r.
Qed.

Lemma fold_addLineCost ingredients items total :
  fold_left (addLineCost ingredients) items total
  = (total + sum_costs (List.map (lineCost ingredients) items))%js.
Proof.
  revert total. induction items as [|item items IH]; intros total; simpl.
  - by rewrite add_0_r.
  - rewrite IH, addLineCost_lineCost. by rewrite add_assoc.
Qed.

Lemma totalIngredientCost_sum ingredients recipe :
  CostBreakdown.totalIngredientCost (calculateRecipeCost ingredients recipe)
  = sum_costs (List.map (lineCost ingredients) (Recipe.ingredients recipe)).
Proof. simpl. by rewrite fold_addLineCost, add_0_l. Qed.

(** C1. A catalog entry bought as 1 kilogram for 18000 costs 18 per gram; a
    recipe whose only line takes 250 of it (the entry is the first of the
    catalog with its id), with no labor, no overhead, one serving and a 30
    percent target, has ingredient cost, total cost and cost per serving 4500
    and suggested price 15000.  In general the ingredient
    cost is the sum over the lines of quantity times cost per base unit, the
    overhead is that sum times the overhead percentage over 100, the total
    adds the labor cost and the overhead, and the suggested price is the
    ingredient cost per serving over the target percentage over 100. *)
Theorem calculateRecipeCost_scenario :
  (forall id name category rid rname description label instructions imageUrl
          others,
     let ing :=
       Ingredient.mk id name category KILOGRAM (JS.of_Z 18000) 1%js
         (calculateBaseCost KILOGRAM (JS.of_Z 18000) 1%js) in
     let recipe :=
       Recipe.mk rid rname description 1%js
         [RecipeIngredient.mk id (JS.of_Z 250) label]
         0%js 0%js (JS.of_Z 30) instructions imageUrl in
     let b := calculateRecipeCost (ing :: others) recipe in
     Ingredient.costPerBaseUnit ing = JS.of_Z 18 /\
     CostBreakdown.totalIngredientCost b = JS.of_Z 4500 /\
     CostBreakdown.totalCost b = JS.of_Z 4500 /\
     CostBreakdown.costPerServing b = JS.of_Z 4500 /\
     CostBreakdown.suggestedPrice b = JS.of_Z 15000) /\
  (forall ingredients recipe,
     let b := calculateRecipeCost ingredients recipe in
     let tic := CostBreakdown.totalIngredientCost b in
     tic = sum_costs (List.map (lineCost ingredients) (Recipe.ingredients recipe)) /\
     CostBreakdown.overheadCost b
       = (tic * (Recipe.overheadPercentage recipe / 100))%js /\
     CostBreakdown.totalCost b
       = (tic + Recipe.laborCost recipe + CostBreakdown.overheadCost b)%js /\
     ((Recipe.targetFoodCostPercentage recipe / 100 >? 0)%js = true ->
      CostBreakdown.suggestedPrice b
        = (ingredientCostPerServing ingredients recipe
           / (Recipe.targetFoodCostPercentage recipe / 100))%js)).
Proof.
  split.
  - intros id name category rid rname description label instructions imageUrl
      others.
    cbn zeta. unfold calculateRecipeCost.
    cbn [Recipe.ingredients Recipe.servings Recipe.laborCost
         Recipe.overheadPercentage Recipe.targetFoodCostPercentage
         Ingredient.costPerBaseUnit CostBreakdown.totalIngredientCost
         CostBreakdown.totalCost CostBreakdown.costPerServing
         CostBreakdown.suggestedPrice fold_left].
    unfold addLineCost.
    cbn [List.find Ingredient.id RecipeIngredient.ingredientId
         RecipeIngredient.quantity Ingredient.costPerBaseUnit].
    rewrite String.eqb_refl.
    repeat split; num_eval.
  - intros ingredients recipe. cbn zeta.
    split; [apply totalIngredientCost_sum|].
    split; [reflexivity|]. split; [reflexivity|].
    intros H. unfold ingredientCostPerServing. simpl in *. by rewrite H.
Qed.

(** The values of the scenario in binary64 arithmetic, where 30 / 100 is not
    exact. *)
Example binary64_scenario :
  Binary64.calculateBaseCost 1000 18000 1 = 18%float /\
  Binary64.costOfOneLine 250 18 0 0 1 30
    = (4500, 4500, 4500, 15000)%float /\
  (0.5 * 1000 = 500)%float.
Proof. repeat split. Qed.





(** ** The catalog *)

Lemma handleUpdateIngredient_In updatedIng st e :
  In e (App.ingredients (handleUpdateIngredient updatedIng st)) <->
  exists i, In i (App.ingredients st) /\
            e = if (Ingredient.id i =? Ingredient.id updatedIng)%string
                then updatedIng else i.
Proof.
  unfold handleUpdateIngredient. cbn [App.ingredients App.setIngredients].
  rewrite in_map_iff. split; intros (i & H1 & H2); exists i; by split.
Qed.

Lemma handleSave_editing uuid ui st editId name cost quantity :
  IngredientManager.isEditing ui = Some editId -> editId ≠ ""%string ->
  PartialIngredient.name (IngredientManager.newIng ui) = Some name ->
  name ≠ ""%string ->
  PartialIngredient.purchaseCost (IngredientManager.newIng ui) = Some cost ->
  PartialIngredient.purchaseQuantity (IngredientManager.newIng ui) = Some quantity ->
  JS.truthy quantity = true ->
  handleSave uuid ui st
  = (IngredientManager.mk None blankIng,
     handleUpdateIngredient
       (Ingredient.mk editId name
          (or_str (PartialIngredient.category (IngredientManager.newIng ui)) "Others")
          (PartialIngredient.purchaseUnit (IngredientManager.newIng ui))
          cost quantity
          (calculateBaseCost
             (PartialIngredient.purchaseUnit (IngredientManager.newIng ui))
             cost quantity))
       st).
Proof.
  intros He Hid Hn Hname Hc Hq Htq. unfold handleSave.
  rewrite Hn, Hc, Hq, He, Htq.
  destruct name as [|c name]; [done|]. destruct editId as [|d editId]; [done|].
  reflexivity.
Qed.

(** C3. Updating an ingredient of the catalog replaces the stored entry and
    recomputes its cost per base unit from the purchase unit, cost and
    quantity provided, whatever derived value came with them.  The update
    goes through [handleSave], the only caller of [handleUpdateIngredient]:
    it builds the ingredient from the form's purchase fields with the
    normalizer applied to them, ignoring the derived value the form state
    carries, and [handleUpdateIngredient] puts that ingredient in the place
    of every entry with its id and leaves the other entries as they are.
    After a save in edit mode that passes the form's checks, the entry
    stored under the edited id has the form's purchase fields and a cost per
    base unit equal to the normalizer applied to them. *)
Theorem update_replaces_save_recomputes :
  (forall updatedIng st k,
     App.ingredients (handleUpdateIngredient updatedIng st) !! k
     = (fun i => if (Ingredient.id i =? Ingredient.id updatedIng)%string
                 then updatedIng else i) <$> (App.ingredients st !! k)) /\
  (forall uuid ui st editId name cost quantity i,
     IngredientManager.isEditing ui = Some editId -> editId ≠ ""%string ->
     PartialIngredient.name (IngredientManager.newIng ui) = Some name ->
     name ≠ ""%string ->
     PartialIngredient.purchaseCost (IngredientManager.newIng ui) = Some cost ->
     PartialIngredient.purchaseQuantity (IngredientManager.newIng ui) = Some quantity ->
     JS.truthy quantity = true ->
     In i (App.ingredients st) -> Ingredient.id i = editId ->
     let st' := snd (handleSave uuid ui st) in
     (exists e, In e (App.ingredients st') /\ Ingredient.id e = editId) /\
     (forall e, In e (App.ingredients st') -> Ingredient.id e = editId ->
        Ingredient.purchaseUnit e
          = PartialIngredient.purchaseUnit (IngredientManager.newIng ui) /\
        Ingredient.purchaseCost e = cost /\
        Ingredient.purchaseQuantity e = quantity /\
        derived_ok e) /\
     (forall e, Ingredient.id e ≠ editId ->
        In e (App.ingredients st') <-> In e (App.ingredients st))).
Proof.
  split.
  - intros updatedIng st k. unfold handleUpdateIngredient.
    cbn [App.ingredients App.setIngredients].
    generalize (App.ingredients st) as l. intros l. revert k.
    induction l as [|a l IH]; intros [|k]; simpl; auto.
  - intros uuid ui st editId name cost quantity i He Hid Hn Hname Hc Hq Htq Hi Hie.
    cbn zeta.
    rewrite (handleSave_editing uuid ui st editId name cost quantity)
      by assumption.
    cbn [snd]. set (built := Ingredient.mk _ _ _ _ _ _ _).
    assert (Hb : Ingredient.id built = editId) by reflexivity.
    split; [|split].
    + exists built. split; [|done]. apply handleUpdateIngredient_In.
      exists i. split; [done|]. rewrite Hb, Hie. by rewrite String.eqb_refl.
    + intros e He' Hide. apply handleUpdateIngredient_In in He'.
      destruct He' as (j & Hj & ->).
      destruct (Ingredient.id j =? Ingredient.id built)%string eqn:E.
      * repeat split; reflexivity.
      * apply String.eqb_neq in E. rewrite Hb in E. done.
    + intros e Hne. rewrite handleUpdateIngredient_In. split.
      * intros (j & Hj & ->).
        destruct (Ingredient.id j =? Ingredient.id built)%string eqn:E; [|done].
        by rewrite Hb in Hne.
      * intros Hin. exists e. split; [done|].
        destruct (Ingredient.id e =? Ingredient.id built)%string eqn:E; [|done].
        apply String.eqb_eq in E. rewrite Hb in E. done.
Qed.

Lemma update_replaces_save_recomputes_witness :
  let st' := snd (handleSave "fresh" repricing pantry) in
  (exists e, In e (App.ingredients st') /\ Ingredient.id e = "1"%string) /\
  (forall e, In e (App.ingredients st') -> Ingredient.id e = "1"%string ->
     Ingredient.purchaseUnit e = KILOGRAM /\
     Ingredient.purchaseCost e = JS.of_Z 36000 /\
     Ingredient.purchaseQuantity e = 1%js /\
     derived_ok e) /\
  (forall e, Ingredient.id e ≠ "1"%string ->
     In e (App.ingredients st') <-> In e (App.ingredients pantry)).
Proof.
  apply (proj2 update_replaces_save_recomputes "fresh"%string repricing pantry
           "1"%string "All-Purpose Flour"%string (JS.of_Z 36000) 1%js flour);
    first [reflexivity | discriminate | by left].
Defined.

(** The form state [repricing] is what [startEdit] and a change of the
    price leave behind: it still carries the derived value of the entry
    that was opened. *)
Example repricing_from_startEdit :
  IngredientManager.isEditing repricing
    = IngredientManager.isEditing
        (startEdit flour (IngredientManager.mk None blankIng)) /\
  PartialIngredient.costPerBaseUnit (IngredientManager.newIng repricing)
    = PartialIngredient.costPerBaseUnit
        (IngredientManager.newIng
           (startEdit flour (IngredientManager.mk None blankIng))).
Proof. split; reflexivity. Qed.

(** Every save, whether it adds or updates, keeps a catalog whose derived
    values agree with the purchase fields in that state. *)
Lemma handleSave_preserves_derived_ok uuid ui st :
  List.Forall derived_ok (App.ingredients st) ->
  List.Forall derived_ok (App.ingredients (snd (handleSave uuid ui st))).
Proof.
  intros Hall. unfold handleSave.
  destruct (PartialIngredient.name _) as [name|]; [|done].
  destruct (PartialIngredient.purchaseCost _) as [cost|]; [|done].
  destruct (PartialIngredient.purchaseQuantity _) as [quantity|]; [|done].
  destruct (negb _ || negb _); [done|].
  destruct (truthy_ostr _); cbn [snd].
  - rewrite List.Forall_forall. intros e He.
    apply handleUpdateIngredient_In in He as (i & Hi & ->).
    destruct (_ =? _)%string; [reflexivity|].
    by apply (proj1 (List.Forall_forall _ _) Hall).
  - unfold handleAddIngredient. cbn [App.ingredients App.setIngredients].
    rewrite List.Forall_forall. intros e He. apply in_app_iff in He as [He|He].
    + by apply (proj1 (List.Forall_forall _ _) Hall).
    + destruct He as [<-|[]]. reflexivity.
Qed.

Lemma isUsed_true recipes id :
  isUsed recipes id = true <->
  exists r ri, In r recipes /\ In ri (Recipe.ingredients r) /\
               RecipeIngredient.ingredientId ri = id.
Proof.
  unfold isUsed. rewrite existsb_exists. split.
  - intros (r & Hr & H). apply existsb_exists in H as (ri & Hri & E).
    apply String.eqb_eq in E. by exists r, ri.
  - intros (r & ri & Hr & Hri & E). exists r. split; [done|].
    apply existsb_exists. exists ri. split; [done|]. by apply String.eqb_eq.
Qed.

(** C4. When some recipe has an ingredient line that references the id,
    [handleDeleteIngredient] refuses: it shows the message that the
    ingredient is used in a recipe and leaves the catalog, and so its length,
    and the recipes as they were.  Otherwise it removes the entries with that
    id, keeps every other entry in its place, and shows nothing. *)
Theorem handleDeleteIngredient_guard (id : string) (st : App.state) :
  let st' := handleDeleteIngredient id st in
  let referenced :=
    exists r ri, In r (App.recipes st) /\ In ri (Recipe.ingredients r) /\
                 RecipeIngredient.ingredientId ri = id in
  (referenced ->
     App.ingredients st' = App.ingredients st /\
     length (App.ingredients st') = length (App.ingredients st) /\
     App.recipes st' = App.recipes st /\
     App.alerts st'
       = App.alerts st ++ ["Cannot delete ingredient because it is used in a recipe."%string]) /\
  (~ referenced ->
     App.ingredients st'
       = List.filter (fun i => negb (Ingredient.id i =? id)%string) (App.ingredients st) /\
     (forall i, In i (App.ingredients st') <->
                In i (App.ingredients st) /\ Ingredient.id i ≠ id) /\
     App.recipes st' = App.recipes st /\
     App.alerts st' = App.alerts st).
Proof.
  cbn zeta. unfold handleDeleteIngredient. split; intros H.
  - apply isUsed_true in H. rewrite H. by destruct st.
  - destruct (isUsed (App.recipes st) id) eqn:E.
    { apply isUsed_true in E. done. }
    destruct st as [ings recs al co]. cbn.
    split; [done|]. split; [|done].
    intros i. rewrite filter_In, negb_true_iff, String.eqb_neq. done.
Qed.

(** ** The draft reconciler *)

Lemma fold_reconcileOne ingredients l acc log :
  fst (fold_left (reconcileOne ingredients) l (acc, log))
  = acc ++ omap (emitted ingredients) l.
Proof.
  revert acc log. induction l as [|s l IH]; intros acc log; simpl.
  - by rewrite app_nil_r.
  - unfold emitted. destruct (findMatch ingredients s); rewrite IH; [|done].
    by rewrite <- app_assoc.
Qed.

Lemma reconcile_omap ingredients draft :
  fst (reconcile ingredients draft)
  = omap (emitted ingredients) (suggestions draft).
Proof.
  unfold reconcile, suggestions. destruct (Draft.ingredients draft); [|done].
  apply fold_reconcileOne.
Qed.

Lemma findMatch_Some ingredients suggested m :
  findMatch ingredients suggested = Some m ->
  In m ingredients /\
  JS.toLowerCase (Ingredient.name m) = JS.toLowerCase (Suggestion.name suggested).
Proof.
  intros H. apply find_some in H as [? ?]. split; [done|]. by apply String.eqb_eq.
Qed.

Lemma findMatch_None ingredients suggested :
  findMatch ingredients suggested = None <->
  forall i, In i ingredients ->
    JS.toLowerCase (Ingredient.name i) ≠ JS.toLowerCase (Suggestion.name suggested).
Proof.
  split.
  - intros H i Hi. apply String.eqb_neq. by apply (find_none _ _ H).
  - intros H. destruct (findMatch ingredients suggested) as [m|] eqn:E; [|done].
    apply findMatch_Some in E as [Hin Heq]. by destruct (H m Hin).
Qed.

Lemma findMatch_exists ingredients suggested i :
  In i ingredients ->
  JS.toLowerCase (Ingredient.name i) = JS.toLowerCase (Suggestion.name suggested) ->
  exists m, findMatch ingredients suggested = Some m.
Proof.
  intros Hi Heq. destruct (findMatch ingredients suggested) as [m|] eqn:E; [eauto|].
  by destruct (proj1 (findMatch_None _ _) E i Hi).
Qed.

Lemma rebase_kg_l suggested :
  Suggestion.unit suggested = "kg"%string \/ Suggestion.unit suggested = "l"%string ->
  rebase suggested = (Suggestion.quantity suggested * 1000)%js.
Proof. unfold rebase. by intros [-> | ->]. Qed.

Lemma rebase_other suggested :
  Suggestion.unit suggested ≠ "kg"%string ->
  Suggestion.unit suggested ≠ "l"%string ->
  rebase suggested = Suggestion.quantity suggested.
Proof.
  intros H1 H2. unfold rebase.
  apply String.eqb_neq in H1, H2. by rewrite H1, H2.
Qed.

(** C5. A suggestion whose name equals, letter case aside, the name of a
    catalog ingredient leaves one line where it stands among the lines of
    the other suggestions: the line references the id of the matched
    ingredient (the first with such a name), carries the suggestion's own
    unit label, and has the suggested quantity times 1000 when the unit is
    "kg" or "l" and the suggested quantity itself for every other unit.
    Half a "kg" of "All-Purpose Flour" against a catalog that has an
    ingredient of that name gives a quantity of 500. *)
Theorem reconcile_matched_line :
  (forall ingredients suggested i,
     In i ingredients ->
     JS.toLowerCase (Ingredient.name i)
       = JS.toLowerCase (Suggestion.name suggested) ->
     exists m,
       findMatch ingredients suggested = Some m /\
       In m ingredients /\
       JS.toLowerCase (Ingredient.name m)
         = JS.toLowerCase (Suggestion.name suggested) /\
       (forall description servings instructions before after,
          fst (reconcile ingredients
                 (Draft.mk description servings instructions
                           (Some (before ++ suggested :: after))))
          = omap (emitted ingredients) before
            ++ RecipeIngredient.mk (Ingredient.id m)
                 (if decide (Suggestion.unit suggested = "kg"%string
                             \/ Suggestion.unit suggested = "l"%string)
                  then (Suggestion.quantity suggested * 1000)%js
                  else Suggestion.quantity suggested)
                 (Suggestion.unit suggested)
               :: omap (emitted ingredients) after)) /\
  (forall ingredients i estimatedCost,
     In i ingredients ->
     Ingredient.name i = "All-Purpose Flour"%string ->
     exists m,
       In m ingredients /\
       fst (reconcile ingredients
              (Draft.mk None None None
                 (Some [Suggestion.mk "All-Purpose Flour" (Num (Q2Qc (1 # 2)))
                                      "kg" estimatedCost])))
       = [RecipeIngredient.mk (Ingredient.id m) (JS.of_Z 500) "kg"]).
Proof.
  split.
  - intros ingredients suggested i Hi Heq.
    destruct (findMatch_exists _ _ _ Hi Heq) as [m Hm].
    exists m. destruct (findMatch_Some _ _ _ Hm) as [Hin Hlow].
    repeat split; try done.
    intros description servings instructions before after.
    rewrite reconcile_omap. unfold suggestions. cbn [Draft.ingredients].
    rewrite omap_app. cbn [omap list_omap]. unfold emitted at 2. rewrite Hm.
    do 3 f_equal. case_decide as Hu.
    + by apply rebase_kg_l.
    + apply rebase_other; intros E; apply Hu; auto.
  - intros ingredients i estimatedCost Hi Hname.
    set (s := Suggestion.mk _ _ _ _).
    destruct (findMatch_exists ingredients s i Hi) as [m Hm].
    { by rewrite Hname. }
    exists m. split; [by apply (findMatch_Some _ _ _ Hm)|].
    rewrite reconcile_omap. unfold suggestions. cbn [Draft.ingredients].
    cbn [omap list_omap]. unfold emitted. rewrite Hm.
    do 2 f_equal. num_eval.
Qed.

Lemma fold_console_log logged st :
  let st' := fold_left (fun st msg => App.console_log msg st) logged st in
  App.ingredients st' = App.ingredients st /\
  App.recipes st' = App.recipes st /\
  App.alerts st' = App.alerts st.
Proof.
  cbn zeta. revert st. induction logged as [|msg logged IH]; intros st; [done|].
  simpl. destruct (IH (App.console_log msg st)) as (-> & -> & ->). done.
Qed.

Lemma omap_emitted_nil ingredients l :
  omap (emitted ingredients) l = [] <->
  forall s, In s l -> findMatch ingredients s = None.
Proof.
  induction l as [|s l IH]; simpl.
  - split; [intros _ s [] | done].
  - unfold emitted at 1. destruct (findMatch ingredients s) eqn:E.
    + split; [done|]. intros H. by rewrite (H s (or_introl eq_refl)) in E.
    + rewrite IH. split.
      * intros H s' [<- | Hs']; auto.
      * intros H s' Hs'. apply H. by right.
Qed.

Lemma handleGenerateAI_ingredients draft prev st r' :
  fst (handleGenerateAI draft (Some prev) st) = Some r' ->
  Recipe.ingredients r'
  = match omap (emitted (App.ingredients st)) (suggestions draft) with
    | [] => Recipe.ingredients prev
    | newIngredients => newIngredients
    end
  \/ Recipe.ingredients r' = Recipe.ingredients prev.
Proof.
  unfold handleGenerateAI. cbn [fmap option_fmap option_map].
  destruct (truthy_ostr _); cbn [negb].
  - pose proof (reconcile_omap (App.ingredients st) draft) as H.
    destruct (reconcile (App.ingredients st) draft) as [newIngredients logged].
    cbn [fst] in *. subst newIngredients. cbn [mergeDraft].
    intros [= <-]. left. cbn [Recipe.ingredients].
    by destruct (omap _ _).
  - intros [= <-]. by right.
Qed.

(** C6. When no suggestion of the draft has, letter case aside, the name of
    a catalog ingredient, [handleGenerateAI] leaves the ingredient list of
    the recipe as it was, and neither the catalog nor the recipes change and
    no message is shown: the unmatched suggestions are only logged.  The
    ingredient list is replaced, by the matched lines, only when at least
    one suggestion matched. *)
Theorem handleGenerateAI_all_unmatched :
  (forall draft prev st,
     (forall s i, In s (suggestions draft) -> In i (App.ingredients st) ->
        JS.toLowerCase (Ingredient.name i) ≠ JS.toLowerCase (Suggestion.name s)) ->
     let out := handleGenerateAI draft (Some prev) st in
     (exists r', fst out = Some r' /\
                 Recipe.ingredients r' = Recipe.ingredients prev) /\
     App.ingredients (snd out) = App.ingredients st /\
     App.recipes (snd out) = App.recipes st /\
     App.alerts (snd out) = App.alerts st) /\
  (forall draft prev st r',
     fst (handleGenerateAI draft (Some prev) st) = Some r' ->
     Recipe.ingredients r' ≠ Recipe.ingredients prev ->
     Recipe.ingredients r'
       = omap (emitted (App.ingredients st)) (suggestions draft) /\
     exists s m, In s (suggestions draft) /\
                 findMatch (App.ingredients st) s = Some m).
Proof.
  split.
  - intros draft prev st Hno. cbn zeta.
    assert (Hnil : omap (emitted (App.ingredients st)) (suggestions draft) = []).
    { apply omap_emitted_nil. intros s Hs. apply findMatch_None. eauto. }
    split.
    + destruct (fst (handleGenerateAI draft (Some prev) st)) as [r'|] eqn:E.
      * exists r'. split; [done|].
        destruct (handleGenerateAI_ingredients _ _ _ _ E) as [H|H]; [|done].
        by rewrite Hnil in H.
      * exfalso. revert E. unfold handleGenerateAI.
        destruct (negb _); [done|].
        by destruct (reconcile (App.ingredients st) draft).
    + unfold handleGenerateAI. destruct (negb _); [done|].
      destruct (reconcile (App.ingredients st) draft) as [n logged]. cbn [snd].
      apply fold_console_log.
  - intros draft prev st r' E Hne.
    destruct (handleGenerateAI_ingredients _ _ _ _ E) as [H|H]; [|done].
    destruct (omap _ _) as [|x l] eqn:Eo; [done|].
    split; [done|].
    destruct (suggestions draft) as [|s0 l0] eqn:Es; [done|].
    assert (Hex : ~ forall s, In s (s0 :: l0) ->
                    findMatch (App.ingredients st) s = None).
    { intros Hall. apply omap_emitted_nil in Hall. by rewrite Hall in Eo. }
    clear -Hex. induction (s0 :: l0) as [|s l IH].
    + destruct Hex. intros s [].
    + destruct (findMatch (App.ingredients st) s) as [m|] eqn:Em.
      * exists s, m. split; [by left | done].
      * destruct IH as (s' & m & Hs' & Hm).
        { intros Hall. apply Hex. intros s' [<- | Hs']; auto. }
        exists s', m. split; [by right | done].
Qed.

Lemma handleGenerateAI_all_unmatched_witness :
  let out := handleGenerateAI saffronDraft (Some crepes) pantry in
  (exists r', fst out = Some r' /\
              Recipe.ingredients r' = Recipe.ingredients crepes) /\
  App.ingredients (snd out) = App.ingredients pantry /\
  App.recipes (snd out) = App.recipes pantry /\
  App.alerts (snd out) = App.alerts pantry.
Proof.
  apply (proj1 handleGenerateAI_all_unmatched saffronDraft crepes pantry).
  intros s i [<- | []] [<- | [<- | []]]; vm_compute; discriminate.
Defined.


Lemma findMatch_setPurchaseUnit (g : Ingredient -> Unit) ingredients suggested :
  findMatch (List.map (fun i => setPurchaseUnit (g i) i) ingredients) suggested
  = (fun i => setPurchaseUnit (g i) i) <$> findMatch ingredients suggested.
Proof.
  unfold findMatch. induction ingredients as [|i l IH]; [done|].
  cbn [List.map List.find setPurchaseUnit Ingredient.name].
  destruct (_ =? _)%string; [done | apply IH].
Qed.

Lemma emitted_setPurchaseUnit (g : Ingredient -> Unit) ingredients suggested :
  emitted (List.map (fun i => setPurchaseUnit (g i) i) ingredients) suggested
  = emitted ingredients suggested.
Proof.
  unfold emitted. rewrite findMatch_setPurchaseUnit.
  by destruct (findMatch ingredients suggested).
Qed.

(** C10. The quantity of every line the reconciler emits is decided by the
    suggestion's unit string alone, compared exactly: a matched suggestion
    gives the line with the id of its match, its own unit label, and its
    quantity times 1000 when the unit is "kg" or "l" and its quantity as it
    is for every other string.  Among these other strings are "KG", "Kg",
    "kgs", "L", "liter" and "kilogram": a matched suggestion in one of them
    is emitted with its quantity unchanged, although [parseUnit] reads each
    of them as kilogram or liter.  The lines are the same whatever the
    purchase units of the catalog entries are. *)
Theorem rebase_exact_token :
  (forall suggested,
     rebase suggested
     = if decide (Suggestion.unit suggested = "kg"%string
                  \/ Suggestion.unit suggested = "l"%string)
       then (Suggestion.quantity suggested * 1000)%js
       else Suggestion.quantity suggested) /\
  (forall ingredients draft,
     fst (reconcile ingredients draft)
     = omap (fun suggested =>
               (fun m =>
                  RecipeIngredient.mk (Ingredient.id m)
                    (if decide (Suggestion.unit suggested = "kg"%string
                                \/ Suggestion.unit suggested = "l"%string)
                     then (Suggestion.quantity suggested * 1000)%js
                     else Suggestion.quantity suggested)
                    (Suggestion.unit suggested))
               <$> findMatch ingredients suggested)
            (suggestions draft)) /\
  (forall u name quantity estimatedCost,
     In u variants ->
     rebase (Suggestion.mk name quantity u estimatedCost) = quantity /\
     (parseUnit u = KILOGRAM \/ parseUnit u = LITER) /\
     (forall ingredients m,
        findMatch ingredients (Suggestion.mk name quantity u estimatedCost)
          = Some m ->
        fst (reconcile ingredients
               (Draft.mk None None None
                  (Some [Suggestion.mk name quantity u estimatedCost])))
        = [RecipeIngredient.mk (Ingredient.id m) quantity u])) /\
  (parseUnit "kg" = KILOGRAM /\ parseUnit "l" = LITER) /\
  (forall (g : Ingredient -> Unit) ingredients draft,
     fst (reconcile (List.map (fun i => setPurchaseUnit (g i) i) ingredients) draft)
     = fst (reconcile ingredients draft)).
Proof.
  assert (Hrule : forall suggested,
            rebase suggested
            = if decide (Suggestion.unit suggested = "kg"%string
                         \/ Suggestion.unit suggested = "l"%string)
              then (Suggestion.quantity suggested * 1000)%js
              else Suggestion.quantity suggested).
  { intros suggested. case_decide as Hu.
    - by apply rebase_kg_l.
    - apply rebase_other; intros E; apply Hu; auto. }
  assert (Hvar : forall u name quantity estimatedCost,
            In u variants ->
            rebase (Suggestion.mk name quantity u estimatedCost) = quantity).
  { intros u name quantity estimatedCost Hu.
    unfold variants in Hu. cbn [In] in Hu.
    repeat (destruct Hu as [<- | Hu]; [reflexivity|]). done. }
  split; [done|]. split; [|split; [|split]].
  - intros ingredients draft. rewrite reconcile_omap.
    induction (suggestions draft) as [|s l IH]; [done|].
    cbn [omap list_omap]. rewrite IH. unfold emitted at 1.
    destruct (findMatch ingredients s); cbn [fmap option_fmap option_map];
      by rewrite ?Hrule.
  - intros u name quantity estimatedCost Hu. split; [by apply Hvar|]. split.
    + unfold variants in Hu. cbn [In] in Hu.
      repeat (destruct Hu as [<- | Hu]; [vm_compute; auto|]). done.
    + intros ingredients m Hm. rewrite reconcile_omap. unfold suggestions.
      cbn [Draft.ingredients omap list_omap]. unfold emitted. rewrite Hm.
      by rewrite (Hvar u name quantity estimatedCost Hu).
  - split; reflexivity.
  - intros g ingredients draft.
    rewrite !reconcile_omap. induction (suggestions draft) as [|s l IH]; [done|].
    cbn [omap list_omap]. rewrite emitted_setPurchaseUnit. by rewrite IH.
Qed.

(** ** Bulk import *)

Section FileUploadFacts.

Variable parseFloat_string : string -> number.
Variable number_toString : number -> string.
Variable randomUUID : nat -> string.

Lemma fold_pushRow rows acc :
  fold_left (pushRow parseFloat_string number_toString randomUUID) rows acc
  = acc ++ imap (fun j row => buildRow parseFloat_string number_toString
                                       randomUUID (length acc + j) row)
                (List.filter (admitted parseFloat_string) rows).
Proof.
  revert acc. induction rows as [|row rows IH]; intros acc.
  - simpl. by rewrite app_nil_r.
  - cbn [fold_left List.filter]. rewrite IH. unfold pushRow.
    destruct (admitted parseFloat_string row).
    + rewrite <- app_assoc. f_equal. rewrite imap_cons. cbn [app].
      rewrite Nat.add_0_r. f_equal. apply imap_ext. intros j x _.
      cbn. rewrite length_app. cbn. f_equal. lia.
    + done.
Qed.

Lemma parseRows_filter rows :
  parseRows parseFloat_string number_toString randomUUID rows
  = imap (buildRow parseFloat_string number_toString randomUUID)
         (List.filter (admitted parseFloat_string) rows).
Proof. unfold parseRows. by rewrite fold_pushRow. Qed.

Lemma admitted_iff row :
  admitted parseFloat_string row = true <->
  truthy_value (row_name row) = true /\ (0 < row_cost parseFloat_string row)%js.
Proof.
  unfold admitted. rewrite andb_true_iff.
  destruct (row_cost parseFloat_string row) as [|c].
  - split; intros [? ?]; done.
  - rewrite gt_zero. unfold JS.lt, JS.of_Z. by rewrite Z2Qc_inj_0.
Qed.

End FileUploadFacts.

Section BulkImport.

Variable parseFloat_string : string -> number.
Variable number_toString : number -> string.
Variable randomUUID : nat -> string.

Lemma zero_cost_not_admitted row :
  is_zero_num (row_cost parseFloat_string row) = true ->
  admitted parseFloat_string row = false.
Proof.
  unfold admitted. destruct (row_cost parseFloat_string row) as [|c]; simpl.
  - intros _. apply andb_false_r.
  - intros H. apply is_zero_true in H as ->. apply andb_false_r.
Qed.

Lemma handleFileUpload_some rows st :
  let parsed := parseRows parseFloat_string number_toString randomUUID rows in
  length parsed ≠ 0%nat ->
  handleFileUpload parseFloat_string number_toString randomUUID rows st
  = App.alert ("Successfully imported " +:+ pretty (length parsed)
                 +:+ " ingredients.")
              (handleBulkAddIngredients parsed st).
Proof.
  cbn zeta. intros H. unfold handleFileUpload.
  destruct (Nat.ltb_spec 0 (length (parseRows parseFloat_string number_toString
                                      randomUUID rows))); [done | lia].
Qed.

(** C8. The import pushes an ingredient for exactly the rows whose name
    resolves to a truthy value and whose cost reads as a number above 0,
    in their order; the other rows are passed over and do not stop the
    import.  When at least one row is admitted the admitted ingredients
    are appended to the catalog and the message shown gives their number;
    when none is, the catalog is left alone and the message says that no
    valid ingredient was found.  Of 10 rows of which 2 have cost 0 and the
    other 8 are valid, 8 are admitted. *)
Theorem handleFileUpload_admits (rows : list (gmap string value)) (st : App.state) :
  let parsed := parseRows parseFloat_string number_toString randomUUID rows in
  let st' := handleFileUpload parseFloat_string number_toString randomUUID rows st in
  let n := length (List.filter (admitted parseFloat_string) rows) in
  (forall row,
     admitted parseFloat_string row = true <->
     truthy_value (row_name row) = true /\
     (0 < row_cost parseFloat_string row)%js) /\
  parsed = imap (buildRow parseFloat_string number_toString randomUUID)
                (List.filter (admitted parseFloat_string) rows) /\
  length parsed = n /\
  (n ≠ 0%nat ->
     App.ingredients st' = App.ingredients st ++ parsed /\
     App.alerts st'
       = App.alerts st ++ ["Successfully imported " +:+ pretty n +:+ " ingredients."]) /\
  (n = 0%nat ->
     App.ingredients st' = App.ingredients st /\
     App.alerts st'
       = App.alerts st ++ ["No valid ingredients found in file. Please check column headers (Name, Cost, Quantity, Unit)."%string]) /\
  (length rows = 10%nat ->
   length (List.filter (fun r => is_zero_num (row_cost parseFloat_string r)) rows)
     = 2%nat ->
   (forall r, In r rows ->
      is_zero_num (row_cost parseFloat_string r) = false ->
      admitted parseFloat_string r = true) ->
   n = 8%nat /\
   App.alerts st'
     = App.alerts st ++ ["Successfully imported 8 ingredients."%string]).
Proof.
  cbn zeta.
  assert (Hlen : length (parseRows parseFloat_string number_toString randomUUID rows)
                 = length (List.filter (admitted parseFloat_string) rows)).
  { by rewrite parseRows_filter, length_imap. }
  split; [apply admitted_iff|].
  split; [apply parseRows_filter|].
  split; [done|].
  split; [|split].
  - intros Hn. rewrite handleFileUpload_some by (by rewrite Hlen).
    rewrite Hlen. by destruct st.
  - intros Hn. unfold handleFileUpload. rewrite Hlen, Hn. by destruct st.
  - intros H10 H2 Hvalid.
    assert (Hn : length (List.filter (admitted parseFloat_string) rows) = 8%nat).
    { pose proof (filter_length
                    (fun r => is_zero_num (row_cost parseFloat_string r)) rows) as Hp.
      rewrite H2, H10 in Hp.
      rewrite (filter_ext_in (admitted parseFloat_string)
                 (fun r => negb (is_zero_num (row_cost parseFloat_string r)))).
      - lia.
      - intros r Hr.
        destruct (is_zero_num (row_cost parseFloat_string r)) eqn:E.
        + by apply zero_cost_not_admitted.
        + by apply Hvalid. }
    split; [done|].
    rewrite handleFileUpload_some by (rewrite Hlen, Hn; lia).
    rewrite Hlen, Hn. by destruct st.
Qed.

End BulkImport.

Lemma handleFileUpload_admits_witness :
  length (List.filter (admitted read_decimal) sheet) = 8%nat /\
  App.alerts (handleFileUpload read_decimal (fun _ => ""%string) pretty sheet pantry)
    = App.alerts pantry ++ ["Successfully imported 8 ingredients."%string].
Proof.
  destruct (handleFileUpload_admits read_decimal (fun _ => ""%string) pretty
              sheet pantry) as (_ & _ & _ & _ & _ & H).
  apply H.
  - reflexivity.
  - vm_compute. reflexivity.
  - intros r Hr. unfold sheet in Hr. cbn [In] in Hr.
    repeat (destruct Hr as [<- | Hr]; [vm_compute; by intros|]). done.
Defined.

(** * Further properties *)

(** ** More on numbers *)

Lemma gt_zero_lt (a : number) : (a >? 0)%js = true <-> (0 < a)%js.
Proof.
  destruct a as [|x]; [done|]. rewrite gt_zero.
  unfold JS.lt, JS.of_Z. by rewrite Z2Qc_inj_0.
Qed.

Lemma gt_zero_false (a : number) : (a >? 0)%js = false <-> ~ (0 < a)%js.
Proof.
  rewrite <- gt_zero_lt. destruct (a >? 0)%js; split; congruence.
Qed.


Lemma lt_zero_iff (x : Qc) : (0 < Num x)%js <-> (0 < x)%Qc.
Proof. unfold JS.lt, JS.of_Z. by rewrite Z2Qc_inj_0. Qed.



(** ** More on the cost calculator *)

Lemma calculateRecipeCost_lines ingredients recipe lines' :
  fold_left (addLineCost ingredients) lines' 0%js
  = fold_left (addLineCost ingredients) (Recipe.ingredients recipe) 0%js ->
  calculateRecipeCost ingredients (setRecipeIngredients lines' recipe)
  = calculateRecipeCost ingredients recipe.
Proof.
  intros H. unfold calculateRecipeCost, setRecipeIngredients.
  cbn [Recipe.ingredients Recipe.servings Recipe.laborCost
       Recipe.overheadPercentage Recipe.targetFoodCostPercentage].
  by rewrite H.
Qed.

Lemma lineCost_unresolvable ingredients item :
  resolvable ingredients item = false -> lineCost ingredients item = 0%js.
Proof.
  unfold resolvable, lineCost. intros H.
  destruct (List.find _ ingredients) as [i|] eqn:E; [|done].
  apply find_some in E as [Hin Heq].
  assert (Hex : List.existsb
                  (fun i => (Ingredient.id i =? RecipeIngredient.ingredientId item)%string)
                  ingredients = true)
    by (apply existsb_exists; eauto).
  congruence.
Qed.

Lemma sum_costs_filter_resolvable ingredients items :
  sum_costs (List.map (lineCost ingredients)
                      (List.filter (resolvable ingredients) items))
  = sum_costs (List.map (lineCost ingredients) items).
Proof.
  induction items as [|item items IH]; [done|]. cbn [List.filter].
  destruct (resolvable ingredients item) eqn:E; cbn [List.map sum_costs fold_right].
  - fold (sum_costs (List.map (lineCost ingredients)
                              (List.filter (resolvable ingredients) items))).
    fold (sum_costs (List.map (lineCost ingredients) items)).
    by rewrite IH.
  - fold (sum_costs (List.map (lineCost ingredients) items)).
    rewrite IH, (lineCost_unresolvable _ _ E). by rewrite add_0_l.
Qed.

(** X1. Lines that reference no entry of the catalog cost nothing: the
    breakdown of a recipe is the breakdown of the recipe without them, and
    against an empty catalog the ingredient cost is 0. *)
Theorem calculateRecipeCost_ignores_dangling ingredients recipe :
  calculateRecipeCost ingredients
    (setRecipeIngredients
       (List.filter (resolvable ingredients) (Recipe.ingredients recipe)) recipe)
  = calculateRecipeCost ingredients recipe /\
  CostBreakdown.totalIngredientCost (calculateRecipeCost [] recipe) = 0%js.
Proof.
  split.
  - apply calculateRecipeCost_lines.
    rewrite !fold_addLineCost. by rewrite sum_costs_filter_resolvable.
  - rewrite totalIngredientCost_sum.
    induction (Recipe.ingredients recipe) as [|item items IH]; [done|].
    cbn [List.map sum_costs fold_right].
    fold (sum_costs (List.map (lineCost []) items)). rewrite IH.
    by rewrite add_0_r.
Qed.

Lemma div_100 (x : Qc) : (Num x / 100)%js = Num (x / Qc_of_Z 100)%Qc.
Proof. apply div_Num. apply Qc_pos_ne. by apply Qc_of_Z_pos. Qed.

Lemma Num_0_div (d : Qc) : d ≠ 0%Qc -> (0 / Num d)%js = 0%js.
Proof.
  intros Hd. unfold JS.of_Z. rewrite div_Num by done. f_equal.
  rewrite Z2Qc_inj_0. unfold Qcdiv. by rewrite Qcmult_0_l.
Qed.

(** X4. When the number of servings is not above 0 (it is 0, negative or
    [NaN]) the cost per serving and the suggested price are 0; when the
    target percentage is not above 0 the suggested price is 0.  No division
    by zero is attempted. *)
Theorem calculateRecipeCost_degenerate ingredients recipe :
  let b := calculateRecipeCost ingredients recipe in
  (~ (0 < Recipe.servings recipe)%js ->
     CostBreakdown.costPerServing b = 0%js /\
     CostBreakdown.suggestedPrice b = 0%js) /\
  (~ (0 < Recipe.targetFoodCostPercentage recipe)%js ->
     CostBreakdown.suggestedPrice b = 0%js).
Proof.
  cbn zeta. unfold calculateRecipeCost.
  cbn [CostBreakdown.costPerServing CostBreakdown.suggestedPrice].
  split.
  - intros Hs. apply gt_zero_false in Hs. rewrite Hs. split; [done|].
    destruct (Recipe.targetFoodCostPercentage recipe / 100 >? 0)%js eqn:E; [|done].
    apply gt_zero_lt in E. destruct (lt_zero_Num _ E) as (d & -> & Hd).
    apply Num_0_div. by apply Qc_pos_ne.
  - intros Ht.
    destruct (Recipe.targetFoodCostPercentage recipe / 100 >? 0)%js eqn:E; [|done].
    exfalso. apply Ht. apply gt_zero_lt in E.
    destruct (Recipe.targetFoodCostPercentage recipe) as [|t]; [done|].
    rewrite div_100 in E. apply lt_zero_iff. apply lt_zero_iff in E.
    assert (H100 : (0 < Qc_of_Z 100)%Qc) by (by apply Qc_of_Z_pos).
    replace t with (t / Qc_of_Z 100 * Qc_of_Z 100)%Qc
      by (field; by apply Qc_pos_ne).
    by apply Qcmult_pos_pos.
Qed.

Lemma calculateRecipeCost_degenerate_witness :
  let b := calculateRecipeCost [flour; milk] sketch in
  CostBreakdown.costPerServing b = 0%js /\
  CostBreakdown.suggestedPrice b = 0%js.
Proof.
  apply (proj1 (calculateRecipeCost_degenerate [flour; milk] sketch)).
  vm_compute. discriminate.
Defined.

(** ** More on the unit normalizer *)




(** X8. Buying in kilograms is buying a thousand times as many grams, and
    buying in liters a thousand times as many milliliters: the cost per base
    unit is the same. *)
Theorem calculateBaseCost_kilo (C Q : number) :
  calculateBaseCost KILOGRAM C Q = calculateBaseCost GRAM C (Q * 1000)%js /\
  calculateBaseCost LITER C Q = calculateBaseCost MILLILITER C (Q * 1000)%js.
Proof.
  assert (H : forall q : number, (q * 1000 * 1)%js = (q * 1000)%js).
  { intros [|q]; [done|]. cbn [JS.mul JS.of_Z]. f_equal.
    rewrite Z2Qc_inj_1. by rewrite Qcmult_1_r. }
  unfold calculateBaseCost.
  change (baseFactor KILOGRAM) with 1000%js.
  change (baseFactor LITER) with 1000%js.
  change (baseFactor GRAM) with 1%js.
  change (baseFactor MILLILITER) with 1%js.
  by rewrite H.
Qed.

Lemma lower_ascii_idemp (c : ascii) :
  JS.lower_ascii (JS.lower_ascii c) = JS.lower_ascii c.
Proof. by destruct c as [[] [] [] [] [] [] [] []]. Qed.

Lemma toLowerCase_idemp (s : string) :
  JS.toLowerCase (JS.toLowerCase s) = JS.toLowerCase s.
Proof.
  induction s as [|c s IH]; [done|]. simpl. by rewrite lower_ascii_idemp, IH.
Qed.

Lemma is_space_lower (c : ascii) : JS.is_space (JS.lower_ascii c) = JS.is_space c.
Proof. by destruct c as [[] [] [] [] [] [] [] []]. Qed.

Lemma toLowerCase_trimStart (s : string) :
  JS.toLowerCase (JS.trimStart s) = JS.trimStart (JS.toLowerCase s).
Proof.
  induction s as [|c s IH]; [done|]. cbn [JS.trimStart JS.toLowerCase].
  rewrite is_space_lower. by destruct (JS.is_space c).
Qed.

Lemma toLowerCase_trimEnd (s : string) :
  JS.toLowerCase (JS.trimEnd s) = JS.trimEnd (JS.toLowerCase s).
Proof.
  induction s as [|c s IH]; [done|]. cbn [JS.trimEnd JS.toLowerCase].
  rewrite <- IH, is_space_lower.
  destruct (JS.trimEnd s); cbn [JS.toLowerCase]; by destruct (JS.is_space c).
Qed.

Lemma trimStart_idemp (s : string) :
  JS.trimStart (JS.trimStart s) = JS.trimStart s.
Proof.
  induction s as [|c s IH]; [done|]. cbn [JS.trimStart].
  destruct (JS.is_space c) eqn:E; [done|]. cbn [JS.trimStart]. by rewrite E.
Qed.

Lemma trimEnd_idemp (s : string) : JS.trimEnd (JS.trimEnd s) = JS.trimEnd s.
Proof.
  induction s as [|c s IH]; [done|]. cbn [JS.trimEnd].
  destruct (JS.trimEnd s) as [|c' r'] eqn:E.
  - destruct (JS.is_space c) eqn:Ec; [done|]. cbn [JS.trimEnd]. by rewrite Ec.
  - cbn [JS.trimEnd]. cbn [JS.trimEnd] in IH.
    destruct (JS.trimEnd r') as [|c'' r'']; by rewrite IH.
Qed.

Lemma trimStart_trimEnd (s : string) :
  JS.trimStart (JS.trimEnd s) = JS.trimEnd (JS.trimStart s).
Proof.
  induction s as [|c s IH]; [done|]. cbn [JS.trimStart JS.trimEnd].
  destruct (JS.is_space c) eqn:Ec.
  - rewrite <- IH. destruct (JS.trimEnd s); cbn [JS.trimStart]; by rewrite ?Ec.
  - cbn [JS.trimEnd]. destruct (JS.trimEnd s); cbn [JS.trimStart]; by rewrite Ec.
Qed.

Lemma trim_idemp (s : string) : JS.trim (JS.trim s) = JS.trim s.
Proof.
  unfold JS.trim.
  by rewrite trimStart_trimEnd, trimStart_idemp, trimEnd_idemp.
Qed.

Lemma trim_toLowerCase_trim (s : string) :
  JS.trim (JS.toLowerCase (JS.trim s)) = JS.trim (JS.toLowerCase s).
Proof.
  replace (JS.toLowerCase (JS.trim s)) with (JS.trim (JS.toLowerCase s)).
  - apply trim_idemp.
  - unfold JS.trim. by rewrite toLowerCase_trimEnd, toLowerCase_trimStart.
Qed.

(** X10. [parseUnit] reads the value of each member of the enumeration back
    as that member, and it reads a token the same whatever the case of its
    ASCII letters and whatever ASCII white space surrounds it. *)
Theorem parseUnit_normalises :
  (forall u, parseUnit (Unit_value u) = u) /\
  (forall raw, parseUnit (JS.toLowerCase raw) = parseUnit raw) /\
  (forall raw, parseUnit (JS.trim raw) = parseUnit raw).
Proof.
  split; [apply parseUnit_Unit_value|]. split; intros raw; unfold parseUnit.
  - by rewrite toLowerCase_idemp.
  - by rewrite trim_toLowerCase_trim.
Qed.

(** ** More on the catalog *)

(** X11. [handleSave] does nothing at all when the form has no name, no
    cost, or a quantity that is missing, 0 or [NaN]: the form, the catalog and
    the rest of the state stay as they were, and no message is shown. *)
Theorem handleSave_rejects uuid ui st :
  truthy_ostr (PartialIngredient.name (IngredientManager.newIng ui)) = false \/
  PartialIngredient.purchaseCost (IngredientManager.newIng ui) = None \/
  (forall q, PartialIngredient.purchaseQuantity (IngredientManager.newIng ui)
             = Some q -> JS.truthy q = false) ->
  handleSave uuid ui st = (ui, st).
Proof.
  unfold handleSave.
  destruct (PartialIngredient.name _) as [name|]; [|done].
  destruct (PartialIngredient.purchaseCost _) as [cost|]; [|done].
  destruct (PartialIngredient.purchaseQuantity _) as [quantity|]; [|done].
  cbn [truthy_ostr]. intros [H | [H | H]].
  - by rewrite H.
  - done.
  - rewrite (H quantity eq_refl). by rewrite orb_true_r.
Qed.

Lemma handleSave_rejects_witness :
  handleSave "fresh" (IngredientManager.mk None blankIng) pantry
  = (IngredientManager.mk None blankIng, pantry).
Proof.
  apply (handleSave_rejects "fresh"%string (IngredientManager.mk None blankIng)
           pantry).
  left. reflexivity.
Defined.

(** X12. A save outside edit mode that passes the checks appends one entry
    to the catalog: its id is the fresh identifier, its fields are the
    form's, its category is "Others" when the form has none, and its cost
    per base unit is the normalizer applied to its purchase fields.  The
    entries already there, the recipes and the messages are untouched and
    the form is reset. *)
Theorem handleSave_adds uuid ui st name cost quantity :
  truthy_ostr (IngredientManager.isEditing ui) = false ->
  PartialIngredient.name (IngredientManager.newIng ui) = Some name ->
  name ≠ ""%string ->
  PartialIngredient.purchaseCost (IngredientManager.newIng ui) = Some cost ->
  PartialIngredient.purchaseQuantity (IngredientManager.newIng ui) = Some quantity ->
  JS.truthy quantity = true ->
  exists added,
    handleSave uuid ui st
    = (IngredientManager.mk (IngredientManager.isEditing ui) blankIng,
       App.mk (App.ingredients st ++ [added]) (App.recipes st)
              (App.alerts st) (App.console st)) /\
    Ingredient.id added = uuid /\
    Ingredient.name added = name /\
    Ingredient.category added
      = or_str (PartialIngredient.category (IngredientManager.newIng ui)) "Others" /\
    Ingredient.purchaseUnit added
      = PartialIngredient.purchaseUnit (IngredientManager.newIng ui) /\
    Ingredient.purchaseCost added = cost /\
    Ingredient.purchaseQuantity added = quantity /\
    derived_ok added.
Proof.
  intros He Hn Hname Hc Hq Htq. unfold handleSave.
  rewrite Hn, Hc, Hq, Htq, He.
  destruct name as [|c name]; [done|]. cbn [JS.truthy_str negb orb].
  eexists. split; [reflexivity|].
  repeat split.
  destruct (IngredientManager.isEditing ui) as [[|]|]; done.
Qed.

Lemma handleSave_adds_witness :
  exists added,
    handleSave "fresh"
      (IngredientManager.mk None
         (PartialIngredient.mk None (Some "Sugar"%string) None GRAM
            (Some (JS.of_Z 16000)) (Some 1000%js) None))
      pantry
    = (IngredientManager.mk None blankIng,
       App.mk (App.ingredients pantry ++ [added]) (App.recipes pantry)
              (App.alerts pantry) (App.console pantry)) /\
    Ingredient.id added = "fresh"%string /\
    Ingredient.name added = "Sugar"%string /\
    Ingredient.category added = "Others"%string /\
    Ingredient.purchaseUnit added = GRAM /\
    Ingredient.purchaseCost added = JS.of_Z 16000 /\
    Ingredient.purchaseQuantity added = 1000%js /\
    derived_ok added.
Proof.
  apply (handleSave_adds "fresh"%string
           (IngredientManager.mk None
              (PartialIngredient.mk None (Some "Sugar"%string) None GRAM
                 (Some (JS.of_Z 16000)) (Some 1000%js) None))
           pantry "Sugar"%string (JS.of_Z 16000) 1000%js);
    first [reflexivity | discriminate].
Defined.

Lemma buildRow_derived_ok parseFloat_string number_toString randomUUID k row :
  derived_ok (buildRow parseFloat_string number_toString randomUUID k row).
Proof. reflexivity. Qed.

Lemma Forall_imap_intro {A B : Type} (P : B -> Prop) (f : nat -> A -> B) l :
  (forall k x, P (f k x)) -> List.Forall P (imap f l).
Proof.
  revert f. induction l as [|x l IH]; intros f H; cbn; constructor; [apply H|].
  apply IH. intros k y. apply H.
Qed.

(** X13. A catalog in which every entry's cost per base unit is the
    normalizer applied to its purchase fields stays so through every save
    from the form, every import of a sheet and every deletion. *)
Theorem derived_ok_invariant st :
  List.Forall derived_ok (App.ingredients st) ->
  (forall uuid ui,
     List.Forall derived_ok (App.ingredients (snd (handleSave uuid ui st)))) /\
  (forall parseFloat_string number_toString randomUUID jsonData,
     List.Forall derived_ok
       (App.ingredients
          (handleFileUpload parseFloat_string number_toString randomUUID
                            jsonData st))) /\
  (forall id,
     List.Forall derived_ok (App.ingredients (handleDeleteIngredient id st))).
Proof.
  intros Hall. split; [|split].
  - intros uuid ui. by apply handleSave_preserves_derived_ok.
  - intros pf ts uu rows. unfold handleFileUpload.
    destruct (0 <? _)%nat; [|by destruct st].
    unfold handleBulkAddIngredients, App.alert, App.setIngredients.
    cbn [App.ingredients]. apply List.Forall_app. split; [done|].
    rewrite parseRows_filter. apply Forall_imap_intro.
    intros k x. apply buildRow_derived_ok.
  - intros id. unfold handleDeleteIngredient.
    destruct (isUsed _ _); [by destruct st|].
    cbn [App.ingredients App.setIngredients].
    rewrite List.Forall_forall in *. intros e He.
    apply filter_In in He as [He _]. auto.
Qed.

Lemma derived_ok_invariant_witness :
  (forall uuid ui,
     List.Forall derived_ok (App.ingredients (snd (handleSave uuid ui kitchen)))) /\
  (forall parseFloat_string number_toString randomUUID jsonData,
     List.Forall derived_ok
       (App.ingredients
          (handleFileUpload parseFloat_string number_toString randomUUID
                            jsonData kitchen))) /\
  (forall id,
     List.Forall derived_ok (App.ingredients (handleDeleteIngredient id kitchen))).
Proof.
  apply (derived_ok_invariant kitchen).
  repeat constructor; unfold derived_ok; vm_compute; apply Num_eq; reflexivity.
Defined.

Lemma map_update_absent (updatedIng : Ingredient) (l : list Ingredient) :
  (forall i, In i l -> Ingredient.id i ≠ Ingredient.id updatedIng) ->
  List.map (fun i => if (Ingredient.id i =? Ingredient.id updatedIng)%string
                     then updatedIng else i) l
  = l.
Proof.
  induction l as [|i l IH]; intros H; [done|]. cbn [List.map].
  rewrite IH by (intros j Hj; apply H; by right). f_equal.
  destruct (_ =? _)%string eqn:E; [|done]. apply String.eqb_eq in E.
  destruct (H i (or_introl eq_refl) E).
Qed.

(** X14. [handleUpdateIngredient] keeps the ids of the catalog, in their
    order, and so its length; given an ingredient whose id no entry has, it
    changes nothing: it never adds an entry. *)
Theorem handleUpdateIngredient_ids updatedIng st :
  List.map Ingredient.id (App.ingredients (handleUpdateIngredient updatedIng st))
  = List.map Ingredient.id (App.ingredients st) /\
  length (App.ingredients (handleUpdateIngredient updatedIng st))
  = length (App.ingredients st) /\
  ((forall i, In i (App.ingredients st) ->
      Ingredient.id i ≠ Ingredient.id updatedIng) ->
   handleUpdateIngredient updatedIng st = st).
Proof.
  unfold handleUpdateIngredient. destruct st as [ings recs al co].
  cbn [App.ingredients App.setIngredients App.recipes App.alerts App.console].
  split; [|split].
  - induction ings as [|i l IH]; [done|]. cbn [List.map]. rewrite IH. f_equal.
    destruct (_ =? _)%string eqn:E; [|done]. symmetry. by apply String.eqb_eq.
  - apply length_map.
  - intros H. unfold App.setIngredients.
    cbn [App.ingredients App.recipes App.alerts App.console].
    by rewrite map_update_absent.
Qed.

Lemma references_ok_ids st st' :
  App.recipes st' = App.recipes st ->
  (forall i, In i (App.ingredients st) ->
     exists i', In i' (App.ingredients st') /\ Ingredient.id i' = Ingredient.id i) ->
  references_ok st -> references_ok st'.
Proof.
  intros Hr Hi Hok r ri Hin Hri. rewrite Hr in Hin.
  destruct (Hok r ri Hin Hri) as (i & Hi1 & Hi2).
  destruct (Hi i Hi1) as (i' & Hi' & E). exists i'. split; [done | congruence].
Qed.

(** X15. No catalog handler leaves a recipe line without its ingredient:
    when every line of every saved recipe references an entry of the
    catalog, this is still so after a deletion (of any id), an update, an
    addition, a bulk addition and a save from the form. *)
Theorem references_ok_invariant st :
  references_ok st ->
  (forall id, references_ok (handleDeleteIngredient id st)) /\
  (forall updatedIng, references_ok (handleUpdateIngredient updatedIng st)) /\
  (forall ing, references_ok (handleAddIngredient ing st)) /\
  (forall newIngredients,
     references_ok (handleBulkAddIngredients newIngredients st)) /\
  (forall uuid ui, references_ok (snd (handleSave uuid ui st))).
Proof.
  intros Hok.
  assert (Hupd : forall updatedIng,
             references_ok (handleUpdateIngredient updatedIng st)).
  { intros updatedIng. apply (references_ok_ids st); [by destruct st | | done].
    intros i Hi. eexists. split.
    - apply handleUpdateIngredient_In. exists i. split; [done | reflexivity].
    - destruct (_ =? _)%string eqn:E; [|done]. symmetry. by apply String.eqb_eq. }
  assert (Hadd : forall l, references_ok (handleBulkAddIngredients l st)).
  { intros l. apply (references_ok_ids st); [by destruct st | | done].
    intros i Hi. exists i. split; [|done].
    unfold handleBulkAddIngredients. cbn [App.ingredients App.setIngredients].
    apply in_or_app. by left. }
  split; [|split; [done|split; [|split; [done|]]]].
  - intros id. unfold handleDeleteIngredient.
    destruct (isUsed (App.recipes st) id) eqn:E.
    { apply (references_ok_ids st); [by destruct st | | done].
      intros i Hi. exists i. by destruct st. }
    intros r ri Hr Hri. cbn [App.recipes App.setIngredients] in Hr.
    destruct (Hok r ri Hr Hri) as (i & Hi & Heq).
    exists i. split; [|done]. cbn [App.ingredients App.setIngredients].
    apply filter_In. split; [done|]. apply negb_true_iff, String.eqb_neq.
    intros Hid. assert (isUsed (App.recipes st) id = true); [|congruence].
    apply isUsed_true. exists r, ri. repeat split; [done..|congruence].
  - intros ing. apply (Hadd [ing]).
  - intros uuid ui. unfold handleSave.
    destruct (PartialIngredient.name _) as [name|]; [|done].
    destruct (PartialIngredient.purchaseCost _) as [cost|]; [|done].
    destruct (PartialIngredient.purchaseQuantity _) as [quantity|]; [|done].
    destruct (negb _ || negb _); [done|].
    destruct (truthy_ostr _); cbn [snd]; [apply Hupd | apply (Hadd [_])].
Qed.

Lemma references_ok_kitchen : references_ok kitchen.
Proof.
  intros r ri [<- | []] [<- | [<- | []]].
  - exists flour. split; [by left | reflexivity].
  - exists milk. split; [right; by left | reflexivity].
Qed.

Lemma references_ok_invariant_witness :
  (forall id, references_ok (handleDeleteIngredient id kitchen)) /\
  (forall updatedIng, references_ok (handleUpdateIngredient updatedIng kitchen)) /\
  (forall ing, references_ok (handleAddIngredient ing kitchen)) /\
  (forall newIngredients,
     references_ok (handleBulkAddIngredients newIngredients kitchen)) /\
  (forall uuid ui, references_ok (snd (handleSave uuid ui kitchen))).
Proof. apply (references_ok_invariant kitchen). apply references_ok_kitchen. Defined.

(** X16. Adding a batch is adding its ingredients one after the other. *)
Theorem handleBulkAddIngredients_repeated newIngredients st :
  handleBulkAddIngredients newIngredients st
  = fold_left (fun st ing => handleAddIngredient ing st) newIngredients st.
Proof.
  revert st. induction newIngredients as [|ing l IH]; intros st.
  - unfold handleBulkAddIngredients. destruct st. cbn. by rewrite app_nil_r.
  - cbn [fold_left]. rewrite <- IH.
    unfold handleBulkAddIngredients, handleAddIngredient.
    cbn [App.setIngredients App.ingredients App.recipes App.alerts App.console].
    by rewrite <- app_assoc.
Qed.

Lemma handleUpdateIngredient_ids_witness :
  handleUpdateIngredient
    (Ingredient.mk "9" "Salt" "Condiments" GRAM (JS.of_Z 9000) 1000%js (JS.of_Z 9))
    pantry
  = pantry.
Proof.
  apply (proj2 (proj2 (handleUpdateIngredient_ids
                         (Ingredient.mk "9" "Salt" "Condiments" GRAM
                                        (JS.of_Z 9000) 1000%js (JS.of_Z 9))
                         pantry))).
  intros i [<- | [<- | []]]; discriminate.
Defined.

(** ** The recipe collection *)

Lemma find_recipe_None (id : string) (l : list Recipe) :
  List.find (fun r => (Recipe.id r =? id)%string) l = None <->
  forall r, In r l -> Recipe.id r ≠ id.
Proof.
  split.
  - intros H r Hr. apply String.eqb_neq. by apply (find_none _ _ H).
  - intros H. destruct (List.find _ l) as [r|] eqn:E; [|done].
    apply find_some in E as [Hin Heq]. apply String.eqb_eq in Heq.
    by destruct (H r Hin).
Qed.

Lemma find_app_None {A : Type} (f : A -> bool) (l l' : list A) :
  List.find f l = None -> List.find f (l ++ l') = List.find f l'.
Proof.
  induction l as [|x l IH]; [done|]. cbn [List.find app].
  destruct (f x); [done | apply IH].
Qed.

(** X17. [handleSaveRecipe] inserts or replaces by id.  After it, looking the
    recipe's id up finds the recipe; the recipes with other ids are the ones
    there were; a recipe whose id was absent makes the collection one
    longer and one whose id was present leaves its length as it was; the
    catalog is not touched. *)
Theorem handleSaveRecipe_upsert recipe st :
  let st' := handleSaveRecipe recipe st in
  List.find (fun r => (Recipe.id r =? Recipe.id recipe)%string) (App.recipes st')
    = Some recipe /\
  (forall r, Recipe.id r ≠ Recipe.id recipe ->
     In r (App.recipes st') <-> In r (App.recipes st)) /\
  (forall r, In r (App.recipes st') -> Recipe.id r = Recipe.id recipe ->
     r = recipe) /\
  length (App.recipes st')
    = match List.find (fun r => (Recipe.id r =? Recipe.id recipe)%string)
                      (App.recipes st) with
      | Some _ => length (App.recipes st)
      | None => S (length (App.recipes st))
      end /\
  App.ingredients st' = App.ingredients st.
Proof.
  cbn zeta. unfold handleSaveRecipe.
  destruct (List.find _ (App.recipes st)) as [r0|] eqn:E;
    cbn [App.recipes App.ingredients setRecipes].
  - apply find_some in E as [Hin0 Heq0].
    split; [|split; [|split; [|split; [apply length_map | done]]]].
    + assert (Hex : exists r, In r (App.recipes st) /\
                       (Recipe.id r =? Recipe.id recipe)%string = true)
        by (exists r0; by split).
      clear Hin0 Heq0. revert Hex.
      induction (App.recipes st) as [|r l IH]; intros (x & Hx & Hxe); [done|].
      cbn [List.map List.find].
      destruct (Recipe.id r =? Recipe.id recipe)%string eqn:E.
      * by rewrite String.eqb_refl.
      * rewrite E. apply IH. destruct Hx as [-> | Hx]; [congruence|].
        by exists x.
    + intros r Hne. rewrite in_map_iff. split.
      * intros (x & Hx & Hin).
        destruct (Recipe.id x =? Recipe.id recipe)%string eqn:Ex.
        -- subst r. by destruct Hne.
        -- by subst r.
      * intros Hin. exists r. split; [|done].
        apply String.eqb_neq in Hne. by rewrite Hne.
    + intros r Hin Hid. apply in_map_iff in Hin as (x & Hx & Hin).
      destruct (Recipe.id x =? Recipe.id recipe)%string eqn:Ex; [done|].
      apply String.eqb_neq in Ex. congruence.
  - pose proof (proj1 (find_recipe_None _ _) E) as Hnone.
    split; [|split; [|split; [|split]]].
    + rewrite (find_app_None _ _ _ E). cbn. by rewrite String.eqb_refl.
    + intros r Hne. rewrite in_app_iff. cbn. split; [|auto].
      intros [H | [<- | []]]; done.
    + intros r Hin Hid. apply in_app_iff in Hin as [Hin | [<- | []]]; [|done].
      by destruct (Hnone r Hin).
    + rewrite length_app. cbn. lia.
    + done.
Qed.

Lemma handleDeleteRecipe_In id st r :
  In r (App.recipes (handleDeleteRecipe true id st)) <->
  In r (App.recipes st) /\ Recipe.id r ≠ id.
Proof.
  unfold handleDeleteRecipe. cbn [App.recipes setRecipes].
  by rewrite filter_In, negb_true_iff, String.eqb_neq.
Qed.

(** X18. [handleDeleteRecipe] changes nothing when the dialog is declined.
    When it is accepted no recipe with the id is left and the others stay, in
    their order; deleting a recipe that was just saved under an id no other
    recipe had gives back the state before the save. *)
Theorem handleDeleteRecipe_spec id st :
  handleDeleteRecipe false id st = st /\
  (forall r, In r (App.recipes (handleDeleteRecipe true id st)) <->
             In r (App.recipes st) /\ Recipe.id r ≠ id) /\
  (forall recipe,
     (forall r, In r (App.recipes st) -> Recipe.id r ≠ Recipe.id recipe) ->
     handleDeleteRecipe true (Recipe.id recipe) (handleSaveRecipe recipe st) = st).
Proof.
  split; [done|]. split.
  - intros r. apply handleDeleteRecipe_In.
  - intros recipe Hnone. unfold handleSaveRecipe.
    rewrite (proj2 (find_recipe_None _ _) Hnone).
    unfold handleDeleteRecipe, setRecipes. destruct st as [ings recs al co].
    cbn [App.recipes App.ingredients App.alerts App.console] in *. f_equal.
    rewrite List.filter_app. cbn [List.filter].
    rewrite String.eqb_refl. cbn [negb]. rewrite app_nil_r.
    induction recs as [|r l IH]; [done|]. cbn [List.filter].
    pose proof (Hnone r (or_introl eq_refl)) as Hr.
    apply String.eqb_neq in Hr. rewrite Hr. cbn [negb]. f_equal.
    apply IH. intros x Hx. apply Hnone. by right.
Qed.

Lemma handleDeleteRecipe_spec_witness :
  handleDeleteRecipe true (Recipe.id crepes) (handleSaveRecipe crepes kitchen)
  = kitchen.
Proof.
  apply (proj2 (proj2 (handleDeleteRecipe_spec (Recipe.id crepes) kitchen)) crepes).
  intros r [<- | []]. discriminate.
Defined.

(** ** Editing an entry of the catalog *)

Lemma map_update_same (ing : Ingredient) (l : list Ingredient) :
  List.NoDup (List.map Ingredient.id l) -> In ing l ->
  List.map (fun i => if (Ingredient.id i =? Ingredient.id ing)%string
                     then ing else i) l
  = l.
Proof.
  induction l as [|a l IH]; intros Hnd Hin; [done|].
  cbn [List.map] in *. apply List.NoDup_cons_iff in Hnd as [Ha Hnd].
  destruct Hin as [-> | Hin].
  - rewrite String.eqb_refl. f_equal. apply map_update_absent.
    intros i Hi E. apply Ha. rewrite <- E. by apply in_map.
  - rewrite (IH Hnd Hin). f_equal.
    destruct (Ingredient.id a =? Ingredient.id ing)%string eqn:E; [|done].
    apply String.eqb_eq in E. destruct Ha. rewrite E. by apply in_map.
Qed.

(** X19. Opening an entry for editing and saving it as it is changes
    nothing in a catalog without repeated ids, provided the entry's derived
    value agrees with its purchase fields and its id, name and category are
    not empty and its quantity is neither 0 nor [NaN]; the form is reset. *)
Theorem startEdit_handleSave uuid ui st ing :
  In ing (App.ingredients st) ->
  List.NoDup (List.map Ingredient.id (App.ingredients st)) ->
  derived_ok ing ->
  Ingredient.id ing ≠ ""%string ->
  Ingredient.name ing ≠ ""%string ->
  Ingredient.category ing ≠ ""%string ->
  JS.truthy (Ingredient.purchaseQuantity ing) = true ->
  handleSave uuid (startEdit ing ui) st = (IngredientManager.mk None blankIng, st).
Proof.
  intros Hin Hnd Hok Hid Hname Hcat Hq.
  rewrite (handleSave_editing uuid (startEdit ing ui) st (Ingredient.id ing)
             (Ingredient.name ing) (Ingredient.purchaseCost ing)
             (Ingredient.purchaseQuantity ing)); try done.
  f_equal. cbn [startEdit IngredientManager.newIng PartialIngredient.category
                PartialIngredient.purchaseUnit or_str].
  assert (Hc : (if JS.truthy_str (Ingredient.category ing)
                then Ingredient.category ing else "Others"%string)
               = Ingredient.category ing)
    by (by destruct (Ingredient.category ing)).
  rewrite Hc. unfold derived_ok in Hok. rewrite <- Hok.
  replace (Ingredient.mk _ _ _ _ _ _ _) with ing by (by destruct ing).
  unfold handleUpdateIngredient. rewrite map_update_same by done.
  by destruct st.
Qed.

Lemma startEdit_handleSave_witness :
  handleSave "fresh" (startEdit milk (IngredientManager.mk None blankIng))
    (App.mk [milk] [] [] [])
  = (IngredientManager.mk None blankIng, App.mk [milk] [] [] []).
Proof.
  apply (startEdit_handleSave "fresh"%string (IngredientManager.mk None blankIng)
           (App.mk [milk] [] [] []) milk).
  - by left.
  - repeat constructor. intros [].
  - unfold derived_ok. vm_compute. apply Num_eq. reflexivity.
  - discriminate.
  - discriminate.
  - discriminate.
  - reflexivity.
Defined.

(** ** More on the recipe manager *)

Lemma setRecipeIngredients_same recipe :
  setRecipeIngredients (Recipe.ingredients recipe) recipe = recipe.
Proof. by destruct recipe. Qed.

Lemma filter_indexed_delete {A : Type} (index start : nat) (l : list A) :
  filter_indexed (fun _ i => negb (i =? index)%nat) start l
  = if (index <? start)%nat then l else delete (index - start)%nat l.
Proof.
  revert start. induction l as [|x l IH]; intros start.
  - cbn [filter_indexed]. destruct (index <? start)%nat; [done|].
    by destruct (index - start)%nat.
  - cbn [filter_indexed]. rewrite IH.
    destruct (Nat.eqb_spec start index) as [-> | Hne]; cbn [negb].
    + rewrite (proj2 (Nat.ltb_ge index index)) by lia.
      rewrite (proj2 (Nat.ltb_lt index (S index))) by lia.
      by rewrite Nat.sub_diag.
    + destruct (Nat.ltb_spec index start) as [Hlt | Hge].
      * by rewrite (proj2 (Nat.ltb_lt index (S start))) by lia.
      * rewrite (proj2 (Nat.ltb_ge index (S start))) by lia.
        replace (index - start)%nat with (S (index - S start)) by lia.
        reflexivity.
Qed.

(** X20. [addIngredientToRecipe] does nothing without an active recipe or
    with an empty catalog.  Otherwise it appends one line, 100 "g" of the
    first catalog entry, and changes nothing else in the recipe; the
    ingredient cost of the recipe grows by 100 times that entry's cost per
    base unit. *)
Theorem addIngredientToRecipe_spec :
  (forall ingredients, addIngredientToRecipe ingredients None = None) /\
  (forall recipe, addIngredientToRecipe [] (Some recipe) = Some recipe) /\
  (forall firstIng rest recipe,
     let newItem := RecipeIngredient.mk (Ingredient.id firstIng) (JS.of_Z 100) "g" in
     let recipe' := setRecipeIngredients (Recipe.ingredients recipe ++ [newItem]) recipe in
     addIngredientToRecipe (firstIng :: rest) (Some recipe) = Some recipe' /\
     CostBreakdown.totalIngredientCost
       (calculateRecipeCost (firstIng :: rest) recipe')
     = (CostBreakdown.totalIngredientCost
          (calculateRecipeCost (firstIng :: rest) recipe)
        + JS.of_Z 100 * Ingredient.costPerBaseUnit firstIng)%js).
Proof.
  split; [by intros []|]. split; [done|].
  intros firstIng rest recipe. cbn zeta. split; [done|].
  unfold calculateRecipeCost, setRecipeIngredients.
  cbn [CostBreakdown.totalIngredientCost Recipe.ingredients].
  rewrite fold_left_app. cbn [fold_left]. unfold addLineCost at 1.
  cbn [List.find RecipeIngredient.ingredientId RecipeIngredient.quantity].
  by rewrite String.eqb_refl.
Qed.

(** X21. [removeRecipeIngredient] removes the line at the index and keeps
    the others in their order; an index past the last line changes nothing;
    without an active recipe there is nothing to do.  Removing the line that
    [addIngredientToRecipe] has just appended gives the recipe back. *)
Theorem removeRecipeIngredient_spec :
  (forall index, removeRecipeIngredient index None = None) /\
  (forall index recipe,
     removeRecipeIngredient index (Some recipe)
     = Some (setRecipeIngredients (delete index (Recipe.ingredients recipe)) recipe)) /\
  (forall index recipe,
     (length (Recipe.ingredients recipe) <= index)%nat ->
     removeRecipeIngredient index (Some recipe) = Some recipe) /\
  (forall firstIng rest recipe,
     removeRecipeIngredient (length (Recipe.ingredients recipe))
       (addIngredientToRecipe (firstIng :: rest) (Some recipe))
     = Some recipe).
Proof.
  assert (H : forall index recipe,
             removeRecipeIngredient index (Some recipe)
             = Some (setRecipeIngredients
                       (delete index (Recipe.ingredients recipe)) recipe)).
  { intros index recipe. unfold removeRecipeIngredient.
    rewrite filter_indexed_delete. cbn. by rewrite Nat.sub_0_r. }
  split; [done|]. split; [done|]. split.
  - intros index recipe Hlen. rewrite H.
    rewrite delete_take_drop, take_ge, drop_ge, app_nil_r by lia.
    by rewrite setRecipeIngredients_same.
  - intros firstIng rest recipe. cbn [addIngredientToRecipe]. rewrite H.
    unfold setRecipeIngredients at 2. cbn [Recipe.ingredients].
    rewrite delete_middle, app_nil_r. by destruct recipe.
Qed.

Lemma removeRecipeIngredient_spec_witness :
  removeRecipeIngredient 7 (Some pancakes) = Some pancakes.
Proof.
  apply (proj1 (proj2 (proj2 removeRecipeIngredient_spec)) 7%nat pancakes).
  cbn. lia.
Defined.



Lemma fold_reconcileOne_length ingredients l acc log :
  let out := fold_left (reconcileOne ingredients) l (acc, log) in
  (length (fst out) + length (snd out) = length acc + length log + length l)%nat.
Proof.
  cbn zeta. revert acc log. induction l as [|s l IH]; intros acc log.
  - cbn. lia.
  - cbn [fold_left reconcileOne].
    destruct (findMatch ingredients s); rewrite IH, length_app; cbn; lia.
Qed.

Lemma emitted_resolves ingredients s ri :
  emitted ingredients s = Some ri ->
  exists i, In i ingredients /\
            Ingredient.id i = RecipeIngredient.ingredientId ri.
Proof.
  unfold emitted. destruct (findMatch ingredients s) as [m|] eqn:E; [|done].
  intros [= <-]. exists m. split; [|done]. by apply (findMatch_Some _ _ _ E).
Qed.

(** X22. Every line the reconciler produces references an entry of the
    catalog, and every suggestion is accounted for: it either gives a line
    or a line in the console.  After [handleGenerateAI] the lines of the
    active recipe all reference catalog entries if they did before. *)
Theorem reconcile_lines_resolve ingredients draft :
  let out := reconcile ingredients draft in
  (forall ri, In ri (fst out) ->
     exists i, In i ingredients /\
               Ingredient.id i = RecipeIngredient.ingredientId ri) /\
  (length (fst out) + length (snd out) = length (suggestions draft))%nat /\
  (forall prev st r',
     ingredients = App.ingredients st ->
     (forall ri, In ri (Recipe.ingredients prev) ->
        exists i, In i ingredients /\
                  Ingredient.id i = RecipeIngredient.ingredientId ri) ->
     fst (handleGenerateAI draft (Some prev) st) = Some r' ->
     forall ri, In ri (Recipe.ingredients r') ->
       exists i, In i ingredients /\
                 Ingredient.id i = RecipeIngredient.ingredientId ri).
Proof.
  cbn zeta.
  assert (Hres : forall ri, In ri (fst (reconcile ingredients draft)) ->
            exists i, In i ingredients /\
                      Ingredient.id i = RecipeIngredient.ingredientId ri).
  { intros ri. rewrite reconcile_omap. intros Hin.
    apply list_elem_of_In, list_elem_of_omap in Hin as (s & _ & Hs).
    by apply (emitted_resolves _ s). }
  split; [done|]. split.
  - unfold reconcile, suggestions.
    destruct (Draft.ingredients draft) as [l|]; [|done].
    apply (fold_reconcileOne_length ingredients l [] []).
  - intros prev st r' -> Hprev E ri Hri.
    destruct (handleGenerateAI_ingredients _ _ _ _ E) as [H|H].
    + destruct (omap _ _) as [|x l] eqn:Eo.
      * rewrite H in Hri. auto.
      * apply Hres. rewrite reconcile_omap, Eo. by rewrite <- H.
    + rewrite H in Hri. auto.
Qed.

(** ** The search box of the ingredient manager *)

Lemma prefix_spec (t s : string) :
  String.prefix t s = true <-> exists b, s = (t ++ b)%string.
Proof.
  revert s. induction t as [|c t IH]; intros s.
  - split; [intros _; by exists s | intros _; by destruct s].
  - destruct s as [|d s]; cbn [String.prefix].
    + split; [done | by intros [b Hb]].
    + destruct (Ascii.ascii_dec c d) as [-> | Hne].
      * rewrite IH. split; intros [b Hb]; exists b; cbn; [by rewrite Hb|].
        cbn in Hb. by injection Hb.
      * split; [done|]. intros [b Hb]. cbn in Hb. injection Hb as Hc _.
        by destruct Hne.
Qed.

Lemma includes_unfold (s t : string) :
  includes s t
  = if String.prefix t s then true
    else match s with
         | EmptyString => false
         | String _ r => includes r t
         end.
Proof. by destruct s. Qed.

Lemma includes_spec (s t : string) :
  includes s t = true <-> exists a b, s = (a ++ t ++ b)%string.
Proof.
  split.
  - induction s as [|c s IH]; rewrite includes_unfold;
      destruct (String.prefix t _) eqn:E; try done.
    + intros _. apply prefix_spec in E as [b Hb]. by exists ""%string, b.
    + intros _. apply prefix_spec in E as [b Hb]. by exists ""%string, b.
    + intros H. destruct (IH H) as (a & b & ->). by exists (String c a), b.
  - intros (a & b & ->). induction a as [|c a IH]; rewrite includes_unfold.
    + assert (E : String.prefix t ("" ++ t ++ b)%string = true)
        by (apply prefix_spec; by exists b).
      by rewrite E.
    + destruct (String.prefix t _); [done|]. apply IH.
Qed.

(** X25. The search box keeps, in their order, exactly the catalog entries
    whose name or category contains the search term, the case of ASCII
    letters aside.  An empty term keeps every entry, and the case of the
    term does not matter. *)
Theorem filteredIngredients_spec ingredients searchTerm :
  (forall i,
     In i (filteredIngredients ingredients searchTerm) <->
     In i ingredients /\
     ((exists a b, JS.toLowerCase (Ingredient.name i)
                   = (a ++ JS.toLowerCase searchTerm ++ b)%string) \/
      (exists a b, JS.toLowerCase (Ingredient.category i)
                   = (a ++ JS.toLowerCase searchTerm ++ b)%string))) /\
  filteredIngredients ingredients "" = ingredients /\
  filteredIngredients ingredients (JS.toLowerCase searchTerm)
  = filteredIngredients ingredients searchTerm.
Proof.
  split; [|split].
  - intros i. unfold filteredIngredients.
    by rewrite filter_In, orb_true_iff, !includes_spec.
  - unfold filteredIngredients. induction ingredients as [|i l IH]; [done|].
    cbn [List.filter]. rewrite IH.
    assert (H : forall s, includes s (JS.toLowerCase "") = true)
      by (intros s; rewrite includes_unfold; by destruct s).
    by rewrite H.
  - unfold filteredIngredients. by rewrite toLowerCase_idemp.
Qed.

(** ** The ingredient names of the marketing generator *)

Lemma length_omap_le {A B : Type} (f : A -> option B) (l : list A) :
  (length (omap f l) <= length l)%nat.
Proof.
  induction l as [|x l IH]; [done|]. cbn [omap list_omap].
  destruct (f x); cbn [length]; lia.
Qed.

(** X26. The names sent with a dish are names of catalog entries that lines
    of the recipe reference, none of them empty; there is at most one per
    line, and lines that reference no entry are passed over.  With an empty
    catalog there are none. *)
Theorem recipeIngredientNames_spec ingredients selectedRecipe :
  let names := recipeIngredientNames ingredients selectedRecipe in
  (forall n, In n names ->
     n ≠ ""%string /\
     exists ri i,
       In ri (Recipe.ingredients selectedRecipe) /\ In i ingredients /\
       Ingredient.id i = RecipeIngredient.ingredientId ri /\
       Ingredient.name i = n) /\
  (length names <= length (Recipe.ingredients selectedRecipe))%nat /\
  recipeIngredientNames [] selectedRecipe = [].
Proof.
  cbn zeta. unfold recipeIngredientNames. split; [|split].
  - intros n Hn. apply list_elem_of_In, list_elem_of_omap in Hn as (o & Ho & Hn).
    apply list_elem_of_In, in_map_iff in Ho as (ri & <- & Hri).
    destruct (List.find _ ingredients) as [i|] eqn:E; [|done].
    cbn in Hn. destruct (JS.truthy_str (Ingredient.name i)) eqn:Et; [|done].
    injection Hn as <-. apply find_some in E as [Hi Hid].
    split; [by destruct (Ingredient.name i)|].
    exists ri, i. repeat split; try done. by apply String.eqb_eq.
  - etransitivity; [apply length_omap_le|]. by rewrite length_map.
  - induction (Recipe.ingredients selectedRecipe) as [|ri l IH]; [done|].
    cbn [List.map List.find]. cbn. apply IH.
Qed.

(** ** Recipes and the deletion guard together *)

Lemma handleSaveRecipe_In recipe st :
  In recipe (App.recipes (handleSaveRecipe recipe st)) /\
  App.ingredients (handleSaveRecipe recipe st) = App.ingredients st /\
  App.alerts (handleSaveRecipe recipe st) = App.alerts st.
Proof.
  unfold handleSaveRecipe.
  destruct (List.find _ (App.recipes st)) as [r0|] eqn:E;
    cbn [App.recipes App.ingredients App.alerts setRecipes];
    (split; [|done]).
  - apply find_some in E as [Hin Heq]. apply in_map_iff. exists r0.
    by rewrite Heq.
  - apply in_or_app. right. by left.
Qed.

Lemma handleDeleteIngredient_used id st :
  isUsed (App.recipes st) id = true ->
  handleDeleteIngredient id st
  = App.alert "Cannot delete ingredient because it is used in a recipe." st.
Proof. intros H. unfold handleDeleteIngredient. by rewrite H. Qed.

Lemma handleDeleteIngredient_unused id st :
  isUsed (App.recipes st) id = false ->
  handleDeleteIngredient id st
  = App.setIngredients
      (List.filter (fun i => negb (Ingredient.id i =? id)%string)
                   (App.ingredients st))
      st.
Proof. intros H. unfold handleDeleteIngredient. by rewrite H. Qed.

(** X27. Once a recipe is saved, none of the ingredients its lines reference
    can be deleted: the deletion is refused with the message and the catalog
    stays as it was.  Once the recipes that reference an ingredient are
    deleted, the deletion goes through and no entry with the id is left. *)
Theorem saved_recipe_protects_ingredients st :
  (forall recipe ri,
     In ri (Recipe.ingredients recipe) ->
     let st' := handleDeleteIngredient (RecipeIngredient.ingredientId ri)
                  (handleSaveRecipe recipe st) in
     App.ingredients st' = App.ingredients st /\
     App.alerts st'
       = App.alerts st ++ ["Cannot delete ingredient because it is used in a recipe."%string]) /\
  (forall rid id,
     (forall r ri, In r (App.recipes st) -> Recipe.id r ≠ rid ->
        In ri (Recipe.ingredients r) -> RecipeIngredient.ingredientId ri ≠ id) ->
     let st' := handleDeleteIngredient id (handleDeleteRecipe true rid st) in
     (forall i, In i (App.ingredients st') -> Ingredient.id i ≠ id) /\
     App.alerts st' = App.alerts st).
Proof.
  split.
  - intros recipe ri Hri. cbn zeta.
    destruct (handleSaveRecipe_In recipe st) as (Hin & Hings & Hal).
    rewrite handleDeleteIngredient_used.
    + cbn [App.alert App.ingredients App.alerts]. by rewrite Hings, Hal.
    + apply isUsed_true. by exists recipe, ri.
  - intros rid id Hfree. cbn zeta.
    rewrite handleDeleteIngredient_unused.
    + cbn [App.setIngredients App.ingredients App.alerts]. split; [|done].
      intros i Hi. apply filter_In in Hi as [_ Hi].
      by apply negb_true_iff, String.eqb_neq in Hi.
    + destruct (isUsed _ id) eqn:E; [|done]. exfalso.
      apply isUsed_true in E as (r & ri & Hr & Hri & Hid).
      apply handleDeleteRecipe_In in Hr as [Hr Hne].
      by apply (Hfree r ri).
Qed.

Lemma saved_recipe_protects_ingredients_witness :
  let st' := handleDeleteIngredient "1" (handleSaveRecipe crepes pantry) in
  App.ingredients st' = App.ingredients pantry /\
  App.alerts st'
    = App.alerts pantry ++ ["Cannot delete ingredient because it is used in a recipe."%string].
Proof.
  apply (proj1 (saved_recipe_protects_ingredients pantry) crepes
           (RecipeIngredient.mk "1" (JS.of_Z 250) "g")).
  by left.
Defined.

(** ** More on the import *)


